(** * go-tika: server lifecycle and checksum-verified download

    A shallow embedding of [tika/server.go]: the server handle
    ([NewServer], [URL]), the process supervisor ([Start],
    [waitForStart]), the checksum validator ([validateFileMD5]) and the
    artifact downloader ([DownloadServer]).

    The Go code is effectful.  The operating system, the network, the
    clock and the child process are represented by an explicit [World]
    that every operation threads through a small state monad; library
    calls whose outcome the program cannot control (a failing [os.Stat],
    the reply to an HTTP GET, the result of a readiness probe, ...) are
    answered by fields of the world, so that every theorem quantifies
    over all behaviours of the environment. *)

From Stdlib Require Import ZArith Strings.Ascii Strings.String Strings.Byte.
From stdpp Require Import base option list gmap strings.

Local Open Scope Z_scope.

(** ** crypto/md5 (RFC 1321)

    [crypto/md5] belongs to Go's standard library.  The development is
    parametric in the digest function wherever the program only compares
    digests; [MD5.Sum] is the real function, used to evaluate the program
    on concrete files. *)

Module MD5.

Definition mask32 : Z := 4294967295.

Definition add32 (x y : Z) : Z := Z.land (x + y) mask32.

Definition not32 (x : Z) : Z := Z.lxor x mask32.

Definition rotl32 (x : Z) (c : Z) : Z :=
  Z.land (Z.lor (Z.shiftl x c) (Z.shiftr x (32 - c))) mask32.

(** The per-round shift amounts. *)
Definition shifts : list Z :=
  [7; 12; 17; 22; 7; 12; 17; 22; 7; 12; 17; 22; 7; 12; 17; 22;
   5; 9; 14; 20; 5; 9; 14; 20; 5; 9; 14; 20; 5; 9; 14; 20;
   4; 11; 16; 23; 4; 11; 16; 23; 4; 11; 16; 23; 4; 11; 16; 23;
   6; 10; 15; 21; 6; 10; 15; 21; 6; 10; 15; 21; 6; 10; 15; 21].

(** [K i = floor (2^32 * abs (sin (i + 1)))]. *)
Definition K : list Z :=
  [3614090360; 3905402710; 606105819; 3250441966;
   4118548399; 1200080426; 2821735955; 4249261313;
   1770035416; 2336552879; 4294925233; 2304563134;
   1804603682; 4254626195; 2792965006; 1236535329;
   4129170786; 3225465664; 643717713; 3921069994;
   3593408605; 38016083; 3634488961; 3889429448;
   568446438; 3275163606; 4107603335; 1163531501;
   2850285829; 4243563512; 1735328473; 2368359562;
   4294588738; 2272392833; 1839030562; 4259657740;
   2763975236; 1272893353; 4139469664; 3200236656;
   681279174; 3936430074; 3572445317; 76029189;
   3654602809; 3873151461; 530742520; 3299628645;
   4096336452; 1126891415; 2878612391; 4237533241;
   1700485571; 2399980690; 4293915773; 2240044497;
   1873313359; 4264355552; 2734768916; 1309151649;
   4149444226; 3174756917; 718787259; 3951481745].

Definition nthZ (l : list Z) (i : nat) : Z := nth i l 0.

Definition byte_to_Z (b : byte) : Z := Z.of_N (Byte.to_N b).

Definition byte_of_Z (z : Z) : byte :=
  match Byte.of_N (Z.to_N (Z.land z 255)) with
  | Some b => b
  | None => x00
  end.

(** Little-endian encoding of the low [n] bytes of [z]. *)
Fixpoint le_bytes (n : nat) (z : Z) : list byte :=
  match n with
  | O => []
  | S n' => byte_of_Z z :: le_bytes n' (Z.shiftr z 8)
  end.

Fixpoint le_word (bs : list byte) : Z :=
  match bs with
  | [] => 0
  | b :: bs' => Z.lor (byte_to_Z b) (Z.shiftl (le_word bs') 8)
  end.

(** Message padding: a one bit, zeros up to 56 mod 64, then the bit
    length on 64 bits. *)
Definition pad (msg : list byte) : list byte :=
  let len := Z.of_nat (length msg) in
  let zeros := Z.to_nat ((55 - len) mod 64) in
  msg ++ x80 :: replicate zeros x00 ++ le_bytes 8 (len * 8).

(** The sixteen 32-bit words of a 64-byte block. *)
Fixpoint words (n : nat) (block : list byte) : list Z :=
  match n with
  | O => []
  | S n' => le_word (take 4 block) :: words n' (drop 4 block)
  end.

Record state := State { sA : Z; sB : Z; sC : Z; sD : Z }.

Definition init : state :=
  State 1732584193 4023233417 2562383102 271733878.

Definition step (M : list Z) (i : nat) (s : state) : state :=
  let '(State a b c d) := s in
  let zi := Z.of_nat i in
  let '(f, g) :=
    if zi <? 16 then
      (Z.lor (Z.land b c) (Z.land (not32 b) d), zi)
    else if zi <? 32 then
      (Z.lor (Z.land d b) (Z.land (not32 d) c), (5 * zi + 1) mod 16)
    else if zi <? 48 then
      (Z.lxor (Z.lxor b c) d, (3 * zi + 5) mod 16)
    else
      (Z.lxor c (Z.lor b (not32 d)), (7 * zi) mod 16) in
  let f' := add32 (add32 (add32 f a) (nthZ K i)) (nthZ M (Z.to_nat g)) in
  State d (add32 b (rotl32 f' (nthZ shifts i))) b c.

Definition block (s : state) (bs : list byte) : state :=
  let M := words 16 bs in
  let '(State a b c d) := foldl (fun s i => step M i s) s (seq 0 64) in
  State (add32 (sA s) a) (add32 (sB s) b) (add32 (sC s) c) (add32 (sD s) d).

Fixpoint blocks (n : nat) (s : state) (bs : list byte) : state :=
  match n with
  | O => s
  | S n' => blocks n' (block s (take 64 bs)) (drop 64 bs)
  end.

(** [md5.New()], [io.Copy(h, f)] over the whole content, [h.Sum(nil)]. *)
Definition Sum (msg : list byte) : list byte :=
  let p := pad msg in
  let '(State a b c d) := blocks (length p / 64)%nat init p in
  le_bytes 4 a ++ le_bytes 4 b ++ le_bytes 4 c ++ le_bytes 4 d.

End MD5.

(** ** fmt.Sprintf("%x", bytes): two lower-case hexadecimal digits per byte *)

Definition hexdigit (n : N) : ascii :=
  match String.get (N.to_nat n) "0123456789abcdef" with
  | Some c => c
  | None => "0"%char
  end.

Fixpoint hex (bs : list byte) : string :=
  match bs with
  | [] => EmptyString
  | b :: bs' =>
      let n := Byte.to_N b in
      String (hexdigit (n / 16)) (String (hexdigit (n mod 16)) (hex bs'))
  end.

(** ** net/url

    [url.Parse] and [URL.String] belong to Go's standard library
    (package [net/url]).  [NewServer] hands them a string that contains the
    caller's port verbatim, so the whole parser is reachable; the module
    follows the library function by function, as of Go 1.19 and the
    releases after it. *)

Module url.

Local Open Scope string_scope.
Local Open Scope nat_scope.

Definition dquote : ascii := ascii_of_nat 34.

Definition between (lo hi c : ascii) : bool :=
  (nat_of_ascii lo <=? nat_of_ascii c) && (nat_of_ascii c <=? nat_of_ascii hi).

Definition is_alpha (c : ascii) : bool := between "a" "z" c || between "A" "Z" c.
Definition is_digit (c : ascii) : bool := between "0" "9" c.

(** [strings.IndexByte(s, c) >= 0] *)
Fixpoint contains_byte (c : ascii) (s : string) : bool :=
  match s with
  | EmptyString => false
  | String d s' => Ascii.eqb c d || contains_byte c s'
  end.

(** [strings.Cut(s, c)] for a one-byte separator. *)
Fixpoint cut (c : ascii) (s : string) : string * string * bool :=
  match s with
  | EmptyString => (EmptyString, EmptyString, false)
  | String d s' =>
      if Ascii.eqb c d then (EmptyString, s', true)
      else let '(b, a, found) := cut c s' in (String d b, a, found)
  end.

(** [strings.LastIndex(s, c)] for a one-byte separator; [None] is -1. *)
Fixpoint last_index (c : ascii) (s : string) : option nat :=
  match s with
  | EmptyString => None
  | String d s' =>
      match last_index c s' with
      | Some i => Some (S i)
      | None => if Ascii.eqb c d then Some 0 else None
      end
  end.

Fixpoint count_byte (c : ascii) (s : string) : nat :=
  match s with
  | EmptyString => 0
  | String d s' => (if Ascii.eqb c d then 1 else 0) + count_byte c s'
  end.

(** [s[:n]] and [s[n:]] *)
Fixpoint take_s (n : nat) (s : string) : string :=
  match n, s with
  | S n', String c s' => String c (take_s n' s')
  | _, _ => EmptyString
  end.

Fixpoint drop_s (n : nat) (s : string) : string :=
  match n, s with
  | S n', String _ s' => drop_s n' s'
  | _, _ => s
  end.

Fixpoint has_suffix_byte (c : ascii) (s : string) : bool :=
  match s with
  | EmptyString => false
  | String d EmptyString => Ascii.eqb c d
  | String _ s' => has_suffix_byte c s'
  end.

Definition lower (c : ascii) : ascii :=
  if between "A" "Z" c then ascii_of_nat (nat_of_ascii c + 32) else c.

Fixpoint ToLower (s : string) : string :=
  match s with
  | EmptyString => EmptyString
  | String c s' => String (lower c) (ToLower s')
  end.

Inductive encoding :=
| encodePath | encodePathSegment | encodeHost | encodeZone
| encodeUserPassword | encodeQueryComponent | encodeFragment.

Definition is_host_mode (mode : encoding) : bool :=
  match mode with encodeHost | encodeZone => true | _ => false end.

(** [shouldEscape]: whether byte [c] must be written as [%XX] in the
    given part of a URL. *)
Definition shouldEscape (c : ascii) (mode : encoding) : bool :=
  if is_alpha c || is_digit c then false
  else if is_host_mode mode
          && (contains_byte c "!$&'()*+,;=:[]<>" || Ascii.eqb c dquote)
  then false
  else if contains_byte c "-_.~" then false
  else if contains_byte c "$&+,/:;=?@" then
    match mode with
    | encodePath => Ascii.eqb c "?"
    | encodePathSegment => contains_byte c "/;,?"
    | encodeUserPassword => contains_byte c "@/?:"
    | encodeQueryComponent => true
    | encodeFragment => false
    | encodeHost | encodeZone => true
    end
  else if match mode with encodeFragment => contains_byte c "!()*" | _ => false end
  then false
  else true.

Definition ishex (c : ascii) : bool :=
  is_digit c || between "a" "f" c || between "A" "F" c.

Definition unhex (c : ascii) : nat :=
  if is_digit c then nat_of_ascii c - 48
  else if between "a" "f" c then nat_of_ascii c - 97 + 10
  else if between "A" "F" c then nat_of_ascii c - 65 + 10
  else 0.

Inductive parse_error :=
| InvalidControlCharacter          (* net/url: invalid control character in URL *)
| MissingProtocolScheme            (* missing protocol scheme *)
| FirstSegmentColon                (* first path segment in URL cannot contain colon *)
| InvalidUserinfo                  (* net/url: invalid userinfo *)
| MissingBracket                   (* missing closing bracket in host *)
| InvalidPortAfterHost (colonPort : string) (* invalid port %q after host *)
| EscapeError (s : string)         (* invalid URL escape %q *)
| InvalidHostError (s : string).   (* invalid character %q in host name *)

(** [unescape]: the library validates the whole string in a first loop
    and decodes it in a second one; here both happen in one traversal,
    which reports the same first error and the same decoded string. *)
Fixpoint unescape (s : string) (mode : encoding) : parse_error + string :=
  match s with
  | EmptyString => inr EmptyString
  | String "%" rest =>
      match rest with
      | String h1 (String h2 rest') =>
          if negb (ishex h1 && ishex h2) then inl (EscapeError (take_s 3 s))
          else if match mode with encodeHost => true | _ => false end
                  && (unhex h1 <? 8) && negb (String.eqb (take_s 3 s) "%25")
          then inl (EscapeError (take_s 3 s))
          else
            let v := ascii_of_nat (unhex h1 * 16 + unhex h2) in
            if match mode with encodeZone => true | _ => false end
               && negb (String.eqb (take_s 3 s) "%25")
               && negb (Ascii.eqb v " ") && shouldEscape v encodeHost
            then inl (EscapeError (take_s 3 s))
            else
              match unescape rest' mode with
              | inl e => inl e
              | inr t => inr (String v t)
              end
      | _ => inl (EscapeError (take_s 3 s))
      end
  | String c rest =>
      if is_host_mode mode && (nat_of_ascii c <? 128) && shouldEscape c encodeHost
      then inl (InvalidHostError (String c EmptyString))
      else
        match unescape rest mode with
        | inl e => inl e
        | inr t =>
            let c' := if Ascii.eqb c "+" then
                        match mode with encodeQueryComponent => " "%char | _ => c end
                      else c in
            inr (String c' t)
        end
  end.

Definition upperhex (n : nat) : ascii :=
  match String.get n "0123456789ABCDEF" with
  | Some c => c
  | None => "0"%char
  end.

Fixpoint escape (s : string) (mode : encoding) : string :=
  match s with
  | EmptyString => EmptyString
  | String c s' =>
      if shouldEscape c mode then
        if Ascii.eqb c " " && match mode with encodeQueryComponent => true | _ => false end
        then String "+" (escape s' mode)
        else String "%" (String (upperhex (nat_of_ascii c / 16))
                          (String (upperhex (nat_of_ascii c mod 16)) (escape s' mode)))
      else String c (escape s' mode)
  end.

Record Userinfo := {
  username : string;
  password : string;
  passwordSet : bool
}.

Record URL := {
  Scheme : string;
  Opaque : string;
  User : option Userinfo;
  Host : string;
  Path : string;
  RawPath : string;
  OmitHost : bool;
  ForceQuery : bool;
  RawQuery : string;
  Fragment : string;
  RawFragment : string
}.

Fixpoint stringContainsCTLByte (s : string) : bool :=
  match s with
  | EmptyString => false
  | String c s' =>
      (nat_of_ascii c <? 32) || (nat_of_ascii c =? 127) || stringContainsCTLByte s'
  end.

(** [getScheme]: [i] is the index of the byte at the head of [s], and
    [pre] the bytes of [rawURL] before it. *)
Fixpoint getScheme_from (i : nat) (pre : string) (s rawURL : string)
  : parse_error + (string * string) :=
  match s with
  | EmptyString => inr (EmptyString, rawURL)
  | String c s' =>
      if is_alpha c then getScheme_from (S i) (pre ++ String c EmptyString) s' rawURL
      else if is_digit c || contains_byte c "+-." then
        if i =? 0 then inr (EmptyString, rawURL)
        else getScheme_from (S i) (pre ++ String c EmptyString) s' rawURL
      else if Ascii.eqb c ":" then
        if i =? 0 then inl MissingProtocolScheme
        else inr (pre, s')
      else inr (EmptyString, rawURL)
  end.

Definition getScheme (rawURL : string) : parse_error + (string * string) :=
  getScheme_from 0 EmptyString rawURL rawURL.

Fixpoint all_bytes (p : ascii -> bool) (s : string) : bool :=
  match s with
  | EmptyString => true
  | String c s' => p c && all_bytes p s'
  end.

Definition validOptionalPort (port : string) : bool :=
  match port with
  | EmptyString => true
  | String c digits => Ascii.eqb c ":" && all_bytes is_digit digits
  end.

(** [validUserinfo] ranges over runes; every rune it accepts is ASCII,
    so a byte of 128 or more (part of any other rune) is refused. *)
Definition validUserinfo (s : string) : bool :=
  all_bytes (fun r => is_alpha r || is_digit r
                       || contains_byte r "-._:~!$&'()*+,;=%@") s.

Definition index_str (sub s : string) : option nat := String.index 0 sub s.

Definition parseHost (host : string) : parse_error + string :=
  let plain := unescape host encodeHost in
  if String.prefix "[" host then
    match last_index "]" host with
    | None => inl MissingBracket
    | Some i =>
        let colonPort := drop_s (i + 1) host in
        if negb (validOptionalPort colonPort) then inl (InvalidPortAfterHost colonPort)
        else
          match index_str "%25" (take_s i host) with
          | Some zone =>
              match unescape (take_s zone host) encodeHost with
              | inl e => inl e
              | inr host1 =>
                  match unescape (take_s (i - zone) (drop_s zone host)) encodeZone with
                  | inl e => inl e
                  | inr host2 =>
                      match unescape (drop_s i host) encodeHost with
                      | inl e => inl e
                      | inr host3 => inr (host1 ++ host2 ++ host3)
                      end
                  end
              end
          | None => plain
          end
    end
  else
    match last_index ":" host with
    | Some i =>
        let colonPort := drop_s i host in
        if negb (validOptionalPort colonPort) then inl (InvalidPortAfterHost colonPort)
        else plain
    | None => plain
    end.

Definition parseAuthority (authority : string)
  : parse_error + (option Userinfo * string) :=
  match last_index "@" authority with
  | None =>
      match parseHost authority with
      | inl e => inl e
      | inr host => inr (None, host)
      end
  | Some i =>
      match parseHost (drop_s (i + 1) authority) with
      | inl e => inl e
      | inr host =>
          let userinfo := take_s i authority in
          if negb (validUserinfo userinfo) then inl InvalidUserinfo
          else if negb (contains_byte ":" userinfo) then
            match unescape userinfo encodeUserPassword with
            | inl e => inl e
            | inr u =>
                inr (Some {| username := u; password := ""; passwordSet := false |}, host)
            end
          else
            let '(uname, pass, _) := cut ":" userinfo in
            match unescape uname encodeUserPassword with
            | inl e => inl e
            | inr u =>
                match unescape pass encodeUserPassword with
                | inl e => inl e
                | inr pw =>
                    inr (Some {| username := u; password := pw; passwordSet := true |},
                         host)
                end
            end
      end
  end.

(** [setPath]: sets [Path] and, when the default encoding of the path
    differs from what was given, [RawPath]. *)
Definition setPath (u : URL) (p : string) : parse_error + URL :=
  match unescape p encodePath with
  | inl e => inl e
  | inr path =>
      let raw := if String.eqb p (escape path encodePath) then "" else p in
      inr {| Scheme := Scheme u; Opaque := Opaque u; User := User u; Host := Host u;
             Path := path; RawPath := raw; OmitHost := OmitHost u;
             ForceQuery := ForceQuery u; RawQuery := RawQuery u;
             Fragment := Fragment u; RawFragment := RawFragment u |}
  end.

Definition setFragment (u : URL) (f : string) : parse_error + URL :=
  match unescape f encodeFragment with
  | inl e => inl e
  | inr frag =>
      let raw := if String.eqb f (escape frag encodeFragment) then "" else f in
      inr {| Scheme := Scheme u; Opaque := Opaque u; User := User u; Host := Host u;
             Path := Path u; RawPath := RawPath u; OmitHost := OmitHost u;
             ForceQuery := ForceQuery u; RawQuery := RawQuery u;
             Fragment := frag; RawFragment := raw |}
  end.

(** [parse(rawURL, viaRequest)] with [viaRequest = false], as [Parse]
    calls it. *)
Definition parse (rawURL : string) : parse_error + URL :=
  if stringContainsCTLByte rawURL then inl InvalidControlCharacter
  else if String.eqb rawURL "*" then
    inr {| Scheme := ""; Opaque := ""; User := None; Host := ""; Path := "*";
           RawPath := ""; OmitHost := false; ForceQuery := false; RawQuery := "";
           Fragment := ""; RawFragment := "" |}
  else
    match getScheme rawURL with
    | inl e => inl e
    | inr (scheme0, rest0) =>
        let scheme := ToLower scheme0 in
        let '(rest1, force, query) :=
          if has_suffix_byte "?" rest0 && (count_byte "?" rest0 =? 1)
          then (take_s (String.length rest0 - 1) rest0, true, "")
          else let '(b, a, _) := cut "?" rest0 in (b, false, a) in
        let u0 := {| Scheme := scheme; Opaque := ""; User := None; Host := "";
                     Path := ""; RawPath := ""; OmitHost := false;
                     ForceQuery := force; RawQuery := query;
                     Fragment := ""; RawFragment := "" |} in
        if negb (String.prefix "/" rest1) && negb (String.eqb scheme "") then
          inr {| Scheme := scheme; Opaque := rest1; User := None; Host := "";
                 Path := ""; RawPath := ""; OmitHost := false;
                 ForceQuery := force; RawQuery := query;
                 Fragment := ""; RawFragment := "" |}
        else if negb (String.prefix "/" rest1)
                && contains_byte ":" (fst (fst (cut "/" rest1)))
        then inl FirstSegmentColon
        else if (negb (String.eqb scheme "") || negb (String.prefix "///" rest1))
                && String.prefix "//" rest1 then
          let auth0 := drop_s 2 rest1 in
          let '(authority, rest2) :=
            match index_str "/" auth0 with
            | Some i => (take_s i auth0, drop_s i auth0)
            | None => (auth0, "")
            end in
          match parseAuthority authority with
          | inl e => inl e
          | inr (user, host) =>
              setPath {| Scheme := scheme; Opaque := ""; User := user; Host := host;
                         Path := ""; RawPath := ""; OmitHost := false;
                         ForceQuery := force; RawQuery := query;
                         Fragment := ""; RawFragment := "" |} rest2
          end
        else if negb (String.eqb scheme "") && String.prefix "/" rest1 then
          setPath {| Scheme := scheme; Opaque := ""; User := None; Host := "";
                     Path := ""; RawPath := ""; OmitHost := true;
                     ForceQuery := force; RawQuery := query;
                     Fragment := ""; RawFragment := "" |} rest1
        else setPath u0 rest1
    end.

(** [*url.Error]: the operation, the URL and the cause. *)
Record Error := { Op : string; URL_ : string; Err : parse_error }.

(** [Parse(rawURL)]: the fragment is cut off first. *)
Definition Parse (rawURL : string) : Error + URL :=
  let '(u, frag, _) := cut "#" rawURL in
  match parse u with
  | inl e => inl {| Op := "parse"; URL_ := u; Err := e |}
  | inr url =>
      if String.eqb frag "" then inr url
      else
        match setFragment url frag with
        | inl e => inl {| Op := "parse"; URL_ := rawURL; Err := e |}
        | inr url' => inr url'
        end
  end.

Definition validEncoded (s : string) (mode : encoding) : bool :=
  all_bytes (fun c => contains_byte c "!$&'()*+,;=:@[]%" || negb (shouldEscape c mode)) s.

Definition EscapedPath (u : URL) : string :=
  let dflt := if String.eqb (Path u) "*" then "*" else escape (Path u) encodePath in
  if negb (String.eqb (RawPath u) "") && validEncoded (RawPath u) encodePath then
    match unescape (RawPath u) encodePath with
    | inr p => if String.eqb p (Path u) then RawPath u else dflt
    | inl _ => dflt
    end
  else dflt.

Definition EscapedFragment (u : URL) : string :=
  let dflt := escape (Fragment u) encodeFragment in
  if negb (String.eqb (RawFragment u) "") && validEncoded (RawFragment u) encodeFragment then
    match unescape (RawFragment u) encodeFragment with
    | inr f => if String.eqb f (Fragment u) then RawFragment u else dflt
    | inl _ => dflt
    end
  else dflt.

Definition Userinfo_String (ui : Userinfo) : string :=
  escape (username ui) encodeUserPassword
  ++ (if passwordSet ui then ":" ++ escape (password ui) encodeUserPassword else "").

Definition is_some {A} (o : option A) : bool :=
  match o with Some _ => true | None => false end.

(** [URL.String]: reassembles the URL. *)
Definition String_ (u : URL) : string :=
  let nonempty (s : string) := negb (String.eqb s "") in
  let scheme := if nonempty (Scheme u) then Scheme u ++ ":" else "" in
  let body :=
    if nonempty (Opaque u) then Opaque u
    else
      let auth :=
        if nonempty (Scheme u) || nonempty (Host u) || is_some (User u) then
          if OmitHost u && String.eqb (Host u) "" && negb (is_some (User u)) then ""
          else
            (if nonempty (Host u) || nonempty (Path u) || is_some (User u)
             then "//" else "")
            ++ match User u with
               | Some ui => Userinfo_String ui ++ "@"
               | None => ""
               end
            ++ (if nonempty (Host u) then escape (Host u) encodeHost else "")
        else "" in
      let path := EscapedPath u in
      let slash :=
        if nonempty path && negb (String.prefix "/" path) && nonempty (Host u)
        then "/" else "" in
      let dot :=
        if String.eqb (scheme ++ auth ++ slash) ""
           && contains_byte ":" (fst (fst (cut "/" path)))
        then "./" else "" in
      auth ++ slash ++ dot ++ path in
  scheme ++ body
  ++ (if ForceQuery u || nonempty (RawQuery u) then "?" ++ RawQuery u else "")
  ++ (if nonempty (Fragment u) then "#" ++ EscapedFragment u else "").

End url.

Local Open Scope string_scope.

(** ** Errors

    A Go [error] is modelled by [option error], [None] being [nil].  The
    errors that [server.go] builds with [fmt.Errorf] have one constructor
    each, carrying the arguments of the format string. *)

(** [type Version string] *)
Abbreviation Version := string.

Inductive error : Type :=
| Canceled                       (* context.Canceled *)
| DeadlineExceeded               (* context.DeadlineExceeded *)
| LibError (msg : string)        (* an error of os, io, net/http or os/exec *)
| URLError (e : url.Error)       (* an error of url.Parse *)
| ErrNoJar                       (* no jar file specified *)
| ErrInvalidPort (port : string) (err : error)      (* invalid port %q: %v *)
| ErrReadingOutput (readErr : error)                (* error reading output: %v *)
| ErrStartingServer (err : error) (out : list byte)
                                 (* error starting server: %v, server stderr: %s *)
| ErrUnsupportedVersion (version : Version)         (* unsupported Tika version: %s *)
| ErrCreatingFile (err : error)                     (* error creating file: %v *)
| ErrUnableToDownload (url : string) (err : error)  (* unable to download %q: %v *)
| ErrSavingDownload (err : error)                   (* error saving download: %v *)
| ErrInvalidMD5Removing (md5 path : string) (err : error)
                                 (* invalid md5: %s: error removing %s: %v *)
| ErrInvalidMD5 (md5 : string).                     (* invalid md5: %s *)

Definition ENOENT : error := LibError "no such file or directory".

(** ** The world *)

(** An [*http.Response]: the status, the bytes the body delivers, and the
    error (if any) with which the body ends instead of [io.EOF]. *)
Record Response := {
  StatusCode : Z;
  Body : list byte;
  BodyErr : option error
}.

(** A failure injected into a system call: the error it returns and, for a
    read or a write, the number of bytes transferred before it. *)
Record fault := { fault_err : error; fault_done : nat }.

(** What the program did to its environment, oldest first. *)
Inductive event :=
| EvStat (path : string)
| EvOpen (path : string)
| EvRead (path : string)
| EvCreate (path : string)
| EvWrite (path : string) (data : list byte)
| EvRemove (path : string)
| EvGet (url : string)
| EvCmdStart (argv : list string)
| EvCancel
| EvCombinedOutput
| EvVersion (url : string).

Inductive proc_state := NotStarted | Running | Killed.

Record World := {
  (* the clock, in milliseconds *)
  now : nat;
  (* the regular files, by path *)
  fs : gmap string (list byte);
  (* the next system calls of package os and io fail as planned here;
     [None], or the end of the plan, lets a call take its normal course *)
  faults : list (option fault);
  (* the reply to an HTTP GET of a URL *)
  net : string -> error + Response;
  (* the outcome of [cmd.Start] for an argument vector *)
  exec_start : list string -> option error;
  (* what [cmd.CombinedOutput] gives for a command that has not been
     started before: the output of its run and the error of the run *)
  exec_output : list string -> list byte * option error;
  (* a readiness probe of a base URL issued at an instant: how long it
     takes, and its error or the version string *)
  probe : string -> nat -> nat * (error + string);
  (* whether the timer wins when it fires at the very instant the context
     is done ([select] chooses among ready cases at random) *)
  tick_first : nat -> bool;
  (* the child process *)
  child : proc_state;
  log : list event
}.

Definition set_now (t : nat) (w : World) : World :=
  {| now := t; fs := fs w; faults := faults w; net := net w;
     exec_start := exec_start w; exec_output := exec_output w; probe := probe w;
     tick_first := tick_first w; child := child w; log := log w |}.

Definition set_fs (m : gmap string (list byte)) (w : World) : World :=
  {| now := now w; fs := m; faults := faults w; net := net w;
     exec_start := exec_start w; exec_output := exec_output w; probe := probe w;
     tick_first := tick_first w; child := child w; log := log w |}.

Definition set_faults (l : list (option fault)) (w : World) : World :=
  {| now := now w; fs := fs w; faults := l; net := net w;
     exec_start := exec_start w; exec_output := exec_output w; probe := probe w;
     tick_first := tick_first w; child := child w; log := log w |}.

Definition set_child (p : proc_state) (w : World) : World :=
  {| now := now w; fs := fs w; faults := faults w; net := net w;
     exec_start := exec_start w; exec_output := exec_output w; probe := probe w;
     tick_first := tick_first w; child := p; log := log w |}.

Definition add_event (e : event) (w : World) : World :=
  {| now := now w; fs := fs w; faults := faults w; net := net w;
     exec_start := exec_start w; exec_output := exec_output w; probe := probe w;
     tick_first := tick_first w; child := child w; log := (log w ++ [e])%list |}.

(** ** A state monad over the world *)

Definition M (A : Type) : Type := World -> A * World.

Definition ret {A} (a : A) : M A := fun w => (a, w).

Definition bind {A B} (m : M A) (k : A -> M B) : M B :=
  fun w => let '(a, w') := m w in k a w'.

Notation "'do' x <~ m ; k" := (bind m (fun x => k))
  (at level 10, x binder, m at level 100, k at level 200, only parsing).

Definition emit (e : event) : M unit := fun w => (tt, add_event e w).

(** The entry of the fault plan that the next system call meets. *)
Definition planned (w : World) : option fault :=
  match faults w with
  | [] => None
  | f :: _ => f
  end.

(** Takes the next entry of the fault plan. *)
Definition next_fault : M (option fault) := fun w =>
  (planned w, set_faults (tail (faults w)) w).

(** ** Package os and io

    A file handle is the path under which the file was opened: within one
    call nothing else renames or replaces the file.  Closing a handle
    ([defer f.Close()], [defer out.Close()], [defer resp.Body.Close()])
    changes nothing that is modelled. *)

Abbreviation File := string.

(** [os.Stat(path)]: only the error is used by the program. *)
Definition os_Stat (path : string) : M (option error) :=
  do flt <~ next_fault;
  do _ <~ emit (EvStat path);
  fun w =>
    match flt with
    | Some x => (Some (fault_err x), w)
    | None =>
        match fs w !! path with
        | Some _ => (None, w)
        | None => (Some ENOENT, w)
        end
    end.

(** [os.Open(path)] *)
Definition os_Open (path : string) : M (error + File) :=
  do flt <~ next_fault;
  do _ <~ emit (EvOpen path);
  fun w =>
    match flt with
    | Some x => (inl (fault_err x), w)
    | None =>
        match fs w !! path with
        | Some _ => (inr path, w)
        | None => (inl ENOENT, w)
        end
    end.

(** [io.Copy(h, f)] into a hash [h]: the bytes that were fed to [h], or
    the read error. *)
Definition io_Copy_from (f : File) : M (error + list byte) :=
  do flt <~ next_fault;
  do _ <~ emit (EvRead f);
  fun w =>
    match flt with
    | Some x => (inl (fault_err x), w)
    | None => (inr (default [] (fs w !! f)), w)
    end.

(** [os.Create(path)]: creates the file or truncates it. *)
Definition os_Create (path : string) : M (error + File) :=
  do flt <~ next_fault;
  do _ <~ emit (EvCreate path);
  fun w =>
    match flt with
    | Some x => (inl (fault_err x), w)
    | None => (inr path, set_fs (<[path := []]> (fs w)) w)
    end.

(** [io.Copy(out, resp.Body)]: appends what the body delivers to the file.
    A failing write leaves the bytes written before it. *)
Definition io_Copy_to (out : File) (resp : Response) : M (option error) :=
  do flt <~ next_fault;
  let '(data, err) :=
    match flt with
    | Some x => (take (fault_done x) (Body resp), Some (fault_err x))
    | None => (Body resp, BodyErr resp)
    end in
  do _ <~ emit (EvWrite out data);
  fun w => (err, set_fs (alter (fun old => (old ++ data)%list) out (fs w)) w).

(** [os.Remove(path)] *)
Definition os_Remove (path : string) : M (option error) :=
  do flt <~ next_fault;
  do _ <~ emit (EvRemove path);
  fun w =>
    match flt with
    | Some x => (Some (fault_err x), w)
    | None =>
        match fs w !! path with
        | Some _ => (None, set_fs (delete path (fs w)) w)
        | None => (Some ENOENT, w)
        end
    end.

(** ** Package context

    A context is done from an instant on (never, for [None]); [reason] is
    what [ctx.Err()] returns from then on. *)
Record Context := { done_at : option nat; reason : error }.

Definition Background : Context := {| done_at := None; reason := Canceled |}.

Definition ctx_done (ctx : Context) (t : nat) : bool :=
  match done_at ctx with
  | Some d => (d <=? t)%nat
  | None => false
  end.

(** [ctx.Err()] *)
Definition ctx_Err (ctx : Context) : M (option error) := fun w =>
  (if ctx_done ctx (now w) then Some (reason ctx) else None, w).

(** The cancel function of the context that [Start] derives: it ends the
    child process started under that context. *)
Definition cancel : M unit :=
  do _ <~ emit EvCancel;
  fun w =>
    match child w with
    | Running => (tt, set_child Killed w)
    | _ => (tt, w)
    end.

(** [context.WithCancel(ctx)].  Until [cancel] is called the derived
    context is done exactly when its parent is; [Start] calls [cancel]
    only after its last use of the derived context. *)
Definition context_WithCancel (ctx : Context) : Context * M unit := (ctx, cancel).

(** [ctxhttp.Get(ctx, nil, url)]: with a context that is done the request
    fails with the context's error; any status code is a response. *)
Definition ctxhttp_Get (ctx : Context) (url : string) : M (error + Response) :=
  do _ <~ emit (EvGet url);
  fun w =>
    if ctx_done ctx (now w) then (inl (reason ctx), w)
    else (net w url, w).

(** ** Package os/exec *)

Record Cmd := { Args : list string; cmd_ctx : Context }.

(** [var commandContext = exec.CommandContext] *)
Definition commandContext (ctx : Context) (name : string) (args : list string) : Cmd :=
  {| Args := name :: args; cmd_ctx := ctx |}.

(** [cmd.Start()] *)
Definition cmd_Start (cmd : Cmd) : M (option error) :=
  do _ <~ emit (EvCmdStart (Args cmd));
  fun w =>
    match exec_start w (Args cmd) with
    | Some e => (Some e, w)
    | None => (None, set_child Running w)
    end.

(** The error of [cmd.Start] for a command whose process exists already. *)
Definition already_started : error := LibError "exec: already started".

(** [cmd.CombinedOutput()]: it points the output of the command to a fresh
    buffer and calls [cmd.Run], which begins with [cmd.Start].  For a
    command that was started before ([c.Process] is set, the child is
    running or has been killed) that [cmd.Start] refuses with
    [already_started], and the buffer is returned empty.  Only a command
    that was never started is run, with the outcome the world decides. *)
Definition cmd_CombinedOutput (cmd : Cmd) : M (list byte * option error) :=
  do _ <~ emit EvCombinedOutput;
  fun w =>
    match child w with
    | NotStarted =>
        match exec_start w (Args cmd) with
        | Some e => (([], Some e), w)
        | None => (exec_output w (Args cmd), w)
        end
    | Running | Killed => (([], Some already_started), w)
    end.

(** ** The client (client.go) *)

Record Client := { client_url : string }.

(** Modelled from the spec: [NewClient] of client.go, which is not among
    the sources; the client is only known to hold the base URL that
    [waitForStart] passes to it. *)
Definition NewClient (url : string) : Client := {| client_url := url |}.

(** Modelled from the spec: [Client.Version] of client.go, which is not
    among the sources; the spec gives it as a call of the shape
    [GetVersion(ctx) (string, error)] that fails while the server is
    unreachable and succeeds once it is ready.  The world decides the
    outcome and the duration of each call. *)
Definition Client_Version (c : Client) (ctx : Context) : M (error + string) :=
  do _ <~ emit (EvVersion (client_url c));
  fun w =>
    let '(duration, r) := probe w (client_url c) (now w) in
    (r, set_now (now w + duration)%nat w).

(** ** The select statement of waitForStart

    [select] over a timer created on the spot by [time.Tick(period)] and
    over [ctx.Done()]: the case that is ready first is taken, and time
    passes until then. *)
Inductive chosen := Tick | Done.

Definition select_Tick_Done (period : nat) (ctx : Context) : M chosen := fun w =>
  let t := now w in
  let fire := (t + period)%nat in
  match done_at ctx with
  | None => (Tick, set_now fire w)
  | Some d =>
      if (d <=? t)%nat then (Done, w)
      else if (d <? fire)%nat then (Done, set_now d w)
      else if (d =? fire)%nat then
        (if tick_first w fire then Tick else Done, set_now fire w)
      else (Tick, set_now fire w)
  end.

(** ** server.go *)

Record Server := {
  jar : string;
  url : string;
  port : string
}.

Definition URL (s : Server) : string := url s.

Definition NewServer (jar port : string) : error + Server :=
  if String.eqb jar "" then inl ErrNoJar
  else
    let port := if String.eqb port "" then "9998" else port in
    let urlString := "http://localhost:" ++ port in
    match url.Parse urlString with
    | inl err => inl (ErrInvalidPort port (URLError err))
    | inr u => inr {| jar := jar; url := url.String_ u; port := port |}
    end.

(** The loop of [waitForStart]; [fuel] bounds the number of iterations,
    and [None] means that the loop is still running when it is used up. *)
Fixpoint waitForStart_loop (fuel : nat) (c : Client) (ctx : Context)
  : M (option (option error)) :=
  match fuel with
  | O => ret None
  | S fuel' =>
      do ev <~ select_Tick_Done 500 ctx;
      match ev with
      | Tick =>
          do r <~ Client_Version c ctx;
          match r with
          | inr _ => ret (Some None)
          | inl _ => waitForStart_loop fuel' c ctx
          end
      | Done =>
          do e <~ ctx_Err ctx;
          ret (Some e)
      end
  end.

Definition waitForStart (fuel : nat) (s : Server) (ctx : Context)
  : M (option (option error)) :=
  let c := NewClient (url s) in
  waitForStart_loop fuel c ctx.

(** [Start] returns the cancel function or an error; [None] means that
    the readiness wait is still running when [fuel] is used up. *)
Definition Start (fuel : nat) (s : Server) (ctx : Context)
  : M (option (error + M unit)) :=
  let '(ctx, cancel) := context_WithCancel ctx in
  let cmd := commandContext ctx "java" ["-jar"; jar s; "-p"; port s] in
  do serr <~ cmd_Start cmd;
  match serr with
  | Some err => do _ <~ cancel; ret (Some (inl err))
  | None =>
      do r <~ waitForStart fuel s ctx;
      match r with
      | None => ret None
      | Some (Some err) =>
          do _ <~ cancel;
          do '(out, readErr) <~ cmd_CombinedOutput cmd;
          match readErr with
          | Some readErr => ret (Some (inl (ErrReadingOutput readErr)))
          | None => ret (Some (inl (ErrStartingServer err out)))
          end
      | Some None => ret (Some (inr cancel))
      end
  end.

(** Supported versions of Tika Server. *)
Definition Version114 : Version := "1.14".
Definition Version115 : Version := "1.15".
Definition Version116 : Version := "1.16".

Definition md5s : gmap Version string :=
  <[Version114 := "39055fc71358d774b9da066f80b1141c"]>
  (<[Version115 := "80bd3f00f05326d5190466de27d593dd"]>
  (<[Version116 := "6a549ce6ef6e186e019766059fd82fb2"]> ∅)).

(** [md5s[version]]: the zero value for a key that is absent. *)
Definition md5s_get (version : Version) : string := default "" (md5s !! version).

Definition downloadURL (version : Version) : string :=
  "http://search.maven.org/remotecontent?filepath=org/apache/tika/tika-server/"
  ++ version ++ "/tika-server-" ++ version ++ ".jar".

Section Download.

(** [h := md5.New(); io.Copy(h, f); h.Sum(nil)] as a function of the
    bytes copied. *)
Variable digest : list byte -> list byte.

Definition validateFileMD5 (path wantH : string) : M (bool * string) :=
  do o <~ os_Open path;
  match o with
  | inl _ => ret (false, "")
  | inr f =>
      do c <~ io_Copy_from f;
      match c with
      | inl _ => ret (false, "")
      | inr content =>
          let md5 := hex (digest content) in
          ret (String.eqb md5 wantH, md5)
      end
  end.

Definition DownloadServer (ctx : Context) (version : Version) (path : string)
  : M (option error) :=
  let wantH := md5s_get version in
  if String.eqb wantH "" then ret (Some (ErrUnsupportedVersion version))
  else
    do serr <~ os_Stat path;
    do valid <~ match serr with
             | None => do '(ok, _) <~ validateFileMD5 path wantH; ret ok
             | Some _ => ret false
             end;
    if valid : bool then ret None
    else
      do c <~ os_Create path;
      match c with
      | inl err => ret (Some (ErrCreatingFile err))
      | inr out =>
          let url := downloadURL version in
          do g <~ ctxhttp_Get ctx url;
          match g with
          | inl err => ret (Some (ErrUnableToDownload url err))
          | inr resp =>
              do cerr <~ io_Copy_to out resp;
              match cerr with
              | Some err => ret (Some (ErrSavingDownload err))
              | None =>
                  do '(ok, md5) <~ validateFileMD5 path wantH;
                  if ok : bool then ret None
                  else
                    do rerr <~ os_Remove path;
                    match rerr with
                    | Some err => ret (Some (ErrInvalidMD5Removing md5 path err))
                    | None => ret (Some (ErrInvalidMD5 md5))
                    end
              end
          end
      end.

End Download.

(** What every system call of package os and io does besides its own
    effect: it consumes one entry of the fault plan and is logged. *)
Definition step (e : event) (w : World) : World :=
  add_event e (set_faults (tail (faults w)) w).

(** No failure is planned for the next [n] system calls. *)
Fixpoint clear (n : nat) (plan : list (option fault)) : bool :=
  match n, plan with
  | O, _ => true
  | S _, [] => true
  | S n', None :: plan' => clear n' plan'
  | S _, Some _ :: _ => false
  end.

(** The events that a run from [w] to [w'] added to the log. *)
Definition new_events (w w' : World) : list event :=
  drop (length (log w)) (log w').

(** The number of HTTP GET requests among some events. *)
Definition is_get (e : event) : bool :=
  match e with EvGet _ => true | _ => false end.

Definition gets (l : list event) : nat := length (List.filter is_get l).

(** The same world, every HTTP response carrying the status [st]. *)
Definition with_status (st : Z) (w : World) : World :=
  {| now := now w; fs := fs w; faults := faults w;
     net := fun u =>
       match net w u with
       | inl e => inl e
       | inr r => inr {| StatusCode := st; Body := Body r; BodyErr := BodyErr r |}
       end;
     exec_start := exec_start w; exec_output := exec_output w; probe := probe w;
     tick_first := tick_first w; child := child w; log := log w |}.

(** The same reply to a GET, a response carrying the status [st]. *)
Definition restatus (st : Z) (g : error + Response) : error + Response :=
  match g with
  | inl e => inl e
  | inr r => inr {| StatusCode := st; Body := Body r; BodyErr := BodyErr r |}
  end.

(** A computation that runs in [with_status st w] as it does in [w]. *)
Definition status_blind (st : Z) {A : Type} (m : M A) : Prop :=
  forall w : World, m (with_status st w) = (fst (m w), with_status st (snd (m w))).

(** [url.Parse] followed by [URL.String], as [NewServer] uses them. *)
Definition reassemble (rawURL : string) : url.parse_error + string :=
  match url.Parse rawURL with
  | inl e => inl (url.Err e)
  | inr u => inr (url.String_ u)
  end.

(** The argument vector that [Start] launches for a server. *)
Definition argv (s : Server) : list string :=
  ["java"; "-jar"; jar s; "-p"; port s].


(** The outcome of the GET that [DownloadServer] issues from [w]. *)
Definition get_outcome (ctx : Context) (w : World) (u : string) : error + Response :=
  if ctx_done ctx (now w) then inl (reason ctx) else net w u.

(** ** The ways a call of DownloadServer can go

    [download_outcome ctx version path w r files evs]: from the world [w]
    the call can return [r], leaving the files [files], after the events
    [evs].  [DownloadServer_outcome] below shows that every call goes one
    of these ways. *)
Section Outcome.

Variable digest : list byte -> list byte.

Inductive download_outcome (ctx : Context) (version : Version) (path : string)
    (w : World) : option error -> gmap string (list byte) -> list event -> Prop :=
| unsupported :
    md5s_get version = "" ->
    download_outcome ctx version path w
      (Some (ErrUnsupportedVersion version)) (fs w) []
| already_valid content :
    md5s_get version <> "" ->
    fs w !! path = Some content ->
    hex (digest content) = md5s_get version ->
    download_outcome ctx version path w
      None (fs w) [EvStat path; EvOpen path; EvRead path]
| create_failed err evs :
    md5s_get version <> "" ->
    gets evs = 0%nat ->
    download_outcome ctx version path w (Some (ErrCreatingFile err)) (fs w) evs
| get_failed err evs :
    md5s_get version <> "" ->
    get_outcome ctx w (downloadURL version) = inl err ->
    gets evs = 1%nat ->
    download_outcome ctx version path w
      (Some (ErrUnableToDownload (downloadURL version) err))
      (<[path := []]> (fs w)) evs
| copy_failed resp err data evs :
    md5s_get version <> "" ->
    get_outcome ctx w (downloadURL version) = inr resp ->
    (exists n, data = take n (Body resp)) ->
    gets evs = 1%nat ->
    download_outcome ctx version path w
      (Some (ErrSavingDownload err)) (<[path := data]> (fs w)) evs
| verified resp evs :
    md5s_get version <> "" ->
    get_outcome ctx w (downloadURL version) = inr resp ->
    BodyErr resp = None ->
    hex (digest (Body resp)) = md5s_get version ->
    gets evs = 1%nat ->
    download_outcome ctx version path w None (<[path := Body resp]> (fs w)) evs
| mismatch_removed resp md5 evs :
    md5s_get version <> "" ->
    get_outcome ctx w (downloadURL version) = inr resp ->
    BodyErr resp = None ->
    md5 = "" \/ md5 = hex (digest (Body resp)) ->
    md5 <> md5s_get version ->
    gets evs = 1%nat ->
    download_outcome ctx version path w
      (Some (ErrInvalidMD5 md5)) (delete path (fs w)) evs
| remove_failed resp md5 err evs :
    md5s_get version <> "" ->
    get_outcome ctx w (downloadURL version) = inr resp ->
    BodyErr resp = None ->
    md5 = "" \/ md5 = hex (digest (Body resp)) ->
    md5 <> md5s_get version ->
    gets evs = 1%nat ->
    download_outcome ctx version path w
      (Some (ErrInvalidMD5Removing md5 path err)) (<[path := Body resp]> (fs w)) evs.

End Outcome.

(** ** Sample environments *)

(** Nothing on disk, no failure planned, a network that refuses the
    connection, a child that launches, and a server that never answers
    the readiness probe. *)
Definition quiet : World :=
  {| now := 0%nat;
     fs := ∅;
     faults := [];
     net := fun _ => inl (LibError "connection refused");
     exec_start := fun _ => None;
     exec_output := fun _ => (list_byte_of_string "java: cannot bind port", None);
     probe := fun _ _ => (10%nat, inl (LibError "connection refused"));
     tick_first := fun _ => true;
     child := NotStarted;
     log := [] |}.

Definition set_net (f : string -> error + Response) (w : World) : World :=
  {| now := now w; fs := fs w; faults := faults w; net := f;
     exec_start := exec_start w; exec_output := exec_output w; probe := probe w;
     tick_first := tick_first w; child := child w; log := log w |}.

Definition set_exec (st : option error) (out : list byte * option error) (w : World)
  : World :=
  {| now := now w; fs := fs w; faults := faults w; net := net w;
     exec_start := fun _ => st; exec_output := fun _ => out; probe := probe w;
     tick_first := tick_first w; child := child w; log := log w |}.

(** A repository that answers every GET with 404 and a short page. *)
Definition not_found : World :=
  set_net (fun _ => inr {| StatusCode := 404;
                           Body := list_byte_of_string "Not Found";
                           BodyErr := None |}) quiet.

(** A context whose deadline is two seconds after the start of the clock. *)
Definition two_seconds : Context :=
  {| done_at := Some 2000%nat; reason := DeadlineExceeded |}.

(** A context that has been cancelled from the start. *)
Definition cancelled : Context := {| done_at := Some 0%nat; reason := Canceled |}.

Definition tmp_jar : string := "/tmp/tika.jar".

(** The quiet world with one file at [tmp_jar]. *)
Definition on_disk (content : list byte) : World :=
  set_fs (<[tmp_jar := content]> ∅) quiet.

(** A stand-in digest that sends every content to the sixteen bytes whose
    hexadecimal form is the table's hash of version 1.14: a content with
    that MD5 digest is what the repository serves, and is not at hand. *)
Definition digest114 (_ : list byte) : list byte :=
  [x39; x05; x5f; xc7; x13; x58; xd7; x74; xb9; xda; x06; x6f; x80; xb1; x14; x1c].

(** A repository that serves some jar. *)
Definition serving : World :=
  set_net (fun _ => inr {| StatusCode := 200;
                           Body := list_byte_of_string "PK";
                           BodyErr := None |}) quiet.

Definition sample_server : Server :=
  {| jar := "x.jar"; url := "http://localhost:9998"; port := "9998" |}.

(** A stand-in digest that gives the bytes of the 1.14 hash to the
    content served by [serving] and nothing to any other content. *)
Definition digest_PK (content : list byte) : list byte :=
  match content with
  | [x50; x4b] => digest114 content
  | _ => []
  end.

(** A repository whose body breaks off with an error after two bytes. *)
Definition breaking : World :=
  set_net (fun _ => inr {| StatusCode := 200;
                           Body := list_byte_of_string "PK";
                           BodyErr := Some (LibError "unexpected EOF") |}) quiet.

Definition set_plan (plan : list (option fault)) (w : World) : World :=
  set_faults plan w.


(** A byte that [url.unescape] keeps as it is in a host name. *)
Definition host_plain (c : ascii) : bool :=
  negb (Ascii.eqb c "%")
  && negb ((nat_of_ascii c <? 128)%nat && url.shouldEscape c url.encodeHost).

(** * Properties *)

(** ** Test vectors of RFC 1321 for [MD5.Sum] *)

Example md5_empty :
  hex (MD5.Sum []) = "d41d8cd98f00b204e9800998ecf8427e".
Proof. vm_compute. reflexivity. Qed.

Example md5_abc :
  hex (MD5.Sum (list_byte_of_string "abc")) = "900150983cd24fb0d6963f7d28e17f72".
Proof. vm_compute. reflexivity. Qed.

Example md5_message_digest :
  hex (MD5.Sum (list_byte_of_string "message digest"))
  = "f96b697d7cb7938d525a2f31aaf161d0".
Proof. vm_compute. reflexivity. Qed.

Example md5_digits :
  hex (MD5.Sum (list_byte_of_string
    "12345678901234567890123456789012345678901234567890123456789012345678901234567890"))
  = "57edf4a22be3c955ac49da2e2107b67a".
Proof. vm_compute. reflexivity. Qed.

(** ** net/url on the URLs that NewServer composes *)

Example Parse_default_port :
  reassemble "http://localhost:9998" = inr "http://localhost:9998".
Proof. vm_compute. reflexivity. Qed.

Example Parse_escapes_path :
  reassemble "http://localhost:80/a b" = inr "http://localhost:80/a%20b".
Proof. vm_compute. reflexivity. Qed.

Example Parse_userinfo_and_zone :
  reassemble "http://localhost:u@[::1%25en0]:80/%7Efoo"
  = inr "http://localhost:u@[::1%25en0]:80/%7Efoo".
Proof. vm_compute. reflexivity. Qed.

Example Parse_space_in_port :
  reassemble "http://localhost:99 98" = inl (url.InvalidPortAfterHost ":99 98").
Proof. vm_compute. reflexivity. Qed.

Example Parse_bad_escape :
  reassemble "http://localhost:80/%zz" = inl (url.EscapeError "%zz").
Proof. vm_compute. reflexivity. Qed.

(** ** The checksum table *)

Lemma md5s_get_supported (version : Version) (wantH : string) :
  md5s !! version = Some wantH -> md5s_get version = wantH /\ wantH <> "".
Proof.
  unfold md5s_get, md5s. intros H.
  rewrite H. split; [reflexivity|].
  repeat (apply lookup_insert_Some in H as [[_ <-]|[_ H]]; [discriminate|]).
  rewrite lookup_empty in H. discriminate.
Qed.

Lemma md5s_get_unsupported (version : Version) :
  md5s !! version = None -> md5s_get version = "".
Proof. unfold md5s_get. intros ->. reflexivity. Qed.

(** ** DownloadServer: unsupported versions *)

(** C8: for a version that is not in the checksum table, DownloadServer
    returns the unsupported-version error and leaves the world as it was:
    no file is created, written or deleted, and no system call is made. *)
Theorem DownloadServer_unsupported_version
    (digest : list byte -> list byte) (ctx : Context)
    (version : Version) (path : string) (w : World) :
  md5s !! version = None ->
  DownloadServer digest ctx version path w = (Some (ErrUnsupportedVersion version), w).
Proof.
  intros H. unfold DownloadServer.
  rewrite (md5s_get_unsupported _ H). reflexivity.
Qed.

Lemma DownloadServer_unsupported_version_witness :
  md5s !! "9.99" = None
  /\ DownloadServer MD5.Sum Background "9.99" tmp_jar quiet
     = (Some (ErrUnsupportedVersion "9.99"), quiet).
Proof.
  assert (H : md5s !! "9.99" = None) by (vm_compute; reflexivity).
  split; [exact H|].
  exact (DownloadServer_unsupported_version MD5.Sum Background "9.99" tmp_jar quiet H).
Defined.

(** ** NewServer *)

Lemma NewServer_no_jar (port : string) : NewServer "" port = inl ErrNoJar.
Proof. reflexivity. Qed.

Lemma NewServer_parse_failure (jar port : string) (e : url.Error) :
  jar <> "" -> port <> "" ->
  url.Parse ("http://localhost:" ++ port) = inl e ->
  NewServer jar port = inl (ErrInvalidPort port (URLError e)).
Proof.
  intros Hjar Hport Hparse. unfold NewServer.
  apply String.eqb_neq in Hjar, Hport. rewrite Hjar, Hport, Hparse. reflexivity.
Qed.

(** C9: NewServer fails for an empty jar path whatever the port is, and
    NewServer("x.jar", "") succeeds with a handle whose port is 9998 and
    whose URL is exactly http://localhost:9998. *)
Theorem NewServer_contract :
  (forall port : string, NewServer "" port = inl ErrNoJar)
  /\ exists s : Server,
       NewServer "x.jar" "" = inr s
       /\ URL s = "http://localhost:9998" /\ port s = "9998" /\ jar s = "x.jar".
Proof.
  split; [exact NewServer_no_jar|].
  exists sample_server. vm_compute. repeat split.
Qed.

(** C10: there is a non-empty port (one with a space in it) for which
    url.Parse rejects the composed URL, so that NewServer returns its
    invalid-port error for every non-empty jar path: the branch is
    reachable through the public constructor. *)
Theorem NewServer_invalid_port_reachable :
  exists (port : string) (e : url.Error),
    port <> ""
    /\ url.Parse ("http://localhost:" ++ port) = inl e
    /\ forall jar : string,
         NewServer jar port
         = if String.eqb jar "" then inl ErrNoJar
           else inl (ErrInvalidPort port (URLError e)).
Proof.
  exists "99 98",
    {| url.Op := "parse"; url.URL_ := "http://localhost:99 98";
       url.Err := url.InvalidPortAfterHost ":99 98" |}.
  split; [discriminate|]. split; [vm_compute; reflexivity|].
  intros jar. unfold NewServer. destruct (String.eqb jar ""); [reflexivity|].
  vm_compute. reflexivity.
Qed.

(** ** The log *)

Lemma new_events_app (w w' : World) (l : list event) :
  log w' = (log w ++ l)%list -> new_events w w' = l.
Proof. unfold new_events. intros ->. apply drop_app_length. Qed.

(** ** Start: the launch fails *)

(** C7: when launching the child process fails, Start calls cancel at
    once and returns the launch error; the events of the run are the
    launch and the cancellation, so the readiness probe is never issued
    (for any bound on the readiness loop, which is not entered), and no
    time passes. *)
Theorem Start_launch_failure
    (fuel : nat) (s : Server) (ctx : Context) (w : World) (err : error) :
  exec_start w (argv s) = Some err ->
  fst (Start fuel s ctx w) = Some (inl err)
  /\ new_events w (snd (Start fuel s ctx w)) = [EvCmdStart (argv s); EvCancel]
  /\ now (snd (Start fuel s ctx w)) = now w.
Proof.
  intros H.
  unfold Start, context_WithCancel, commandContext, cmd_Start, cancel, bind, emit, ret.
  simpl. fold (argv s). rewrite H. simpl.
  split; [|split].
  - destruct (child w); reflexivity.
  - apply new_events_app. destruct (child w); simpl; rewrite <- app_assoc; reflexivity.
  - destruct (child w); reflexivity.
Qed.

Lemma Start_launch_failure_witness :
  exec_start (set_exec (Some (LibError "exec: java: not found")) ([], None) quiet)
    (argv sample_server) = Some (LibError "exec: java: not found")
  /\ fst (Start 0 sample_server two_seconds
            (set_exec (Some (LibError "exec: java: not found")) ([], None) quiet))
     = Some (inl (LibError "exec: java: not found")).
Proof.
  split; [reflexivity|].
  apply (Start_launch_failure 0 sample_server two_seconds
           (set_exec (Some (LibError "exec: java: not found")) ([], None) quiet)).
  reflexivity.
Defined.

(** ** waitForStart *)

(** C6: with a context that is already done (cancelled, or past its
    deadline) waitForStart returns the context's error in its first
    iteration; the world is left as it was, so no probe was issued and no
    time passed. *)
Theorem waitForStart_context_already_done
    (fuel : nat) (s : Server) (ctx : Context) (w : World) :
  ctx_done ctx (now w) = true ->
  waitForStart (S fuel) s ctx w = (Some (Some (reason ctx)), w).
Proof.
  intros H. unfold waitForStart. simpl.
  unfold bind, select_Tick_Done, ctx_Err, ret.
  unfold ctx_done in *. destruct (done_at ctx) as [d|]; [|discriminate].
  rewrite H. simpl. rewrite H. reflexivity.
Qed.

Lemma waitForStart_context_already_done_witness :
  ctx_done cancelled (now quiet) = true
  /\ waitForStart 1 sample_server cancelled quiet = (Some (Some Canceled), quiet).
Proof.
  split; [reflexivity|].
  apply (waitForStart_context_already_done 0 sample_server cancelled quiet).
  reflexivity.
Defined.

(** ** System calls in closed form

    Each call returns a pair of its result and of the world it leaves,
    both determined by the next entry of the fault plan and by the files. *)

Lemma os_Stat_eq (path : string) (w : World) :
  os_Stat path w
  = (match planned w with
     | Some x => Some (fault_err x)
     | None => match fs w !! path with Some _ => None | None => Some ENOENT end
     end, step (EvStat path) w).
Proof.
  unfold os_Stat, bind, next_fault, emit, step. cbn.
  destruct (planned w); [reflexivity|]. destruct (fs w !! path); reflexivity.
Qed.

Lemma os_Open_eq (path : string) (w : World) :
  os_Open path w
  = (match planned w with
     | Some x => inl (fault_err x)
     | None => match fs w !! path with Some _ => inr path | None => inl ENOENT end
     end, step (EvOpen path) w).
Proof.
  unfold os_Open, bind, next_fault, emit, step. cbn.
  destruct (planned w); [reflexivity|]. destruct (fs w !! path); reflexivity.
Qed.

Lemma io_Copy_from_eq (f : File) (w : World) :
  io_Copy_from f w
  = (match planned w with
     | Some x => inl (fault_err x)
     | None => inr (default [] (fs w !! f))
     end, step (EvRead f) w).
Proof.
  unfold io_Copy_from, bind, next_fault, emit, step. cbn.
  destruct (planned w); reflexivity.
Qed.

Lemma os_Create_eq (path : string) (w : World) :
  os_Create path w
  = (match planned w with
     | Some x => inl (fault_err x)
     | None => inr path
     end,
     match planned w with
     | Some _ => step (EvCreate path) w
     | None => set_fs (<[path := []]> (fs w)) (step (EvCreate path) w)
     end).
Proof.
  unfold os_Create, bind, next_fault, emit, step. cbn.
  destruct (planned w); reflexivity.
Qed.

Lemma os_Remove_eq (path : string) (w : World) :
  os_Remove path w
  = (match planned w with
     | Some x => Some (fault_err x)
     | None => match fs w !! path with Some _ => None | None => Some ENOENT end
     end,
     match planned w with
     | Some _ => step (EvRemove path) w
     | None =>
         match fs w !! path with
         | Some _ => set_fs (delete path (fs w)) (step (EvRemove path) w)
         | None => step (EvRemove path) w
         end
     end).
Proof.
  unfold os_Remove, bind, next_fault, emit, step. cbn.
  destruct (planned w); [reflexivity|]. destruct (fs w !! path); reflexivity.
Qed.

Lemma ctxhttp_Get_eq (ctx : Context) (u : string) (w : World) :
  ctxhttp_Get ctx u w = (get_outcome ctx w u, add_event (EvGet u) w).
Proof.
  unfold ctxhttp_Get, get_outcome, bind, emit. cbn.
  destruct (ctx_done ctx (now w)); reflexivity.
Qed.

Lemma io_Copy_to_eq (out : File) (resp : Response) (w : World) :
  io_Copy_to out resp w
  = (match planned w with
     | Some x => Some (fault_err x)
     | None => BodyErr resp
     end,
     match planned w with
     | Some x =>
         set_fs (alter (fun old => (old ++ take (fault_done x) (Body resp))%list) out (fs w))
           (step (EvWrite out (take (fault_done x) (Body resp))) w)
     | None =>
         set_fs (alter (fun old => (old ++ Body resp)%list) out (fs w))
           (step (EvWrite out (Body resp)) w)
     end).
Proof.
  unfold io_Copy_to, bind, next_fault, emit, step. cbn.
  destruct (planned w); reflexivity.
Qed.

Lemma validateFileMD5_eq (digest : list byte -> list byte) (path wantH : string) (w : World) :
  validateFileMD5 digest path wantH w
  = (match planned w with
     | Some _ => (false, "")
     | None =>
         match fs w !! path with
         | None => (false, "")
         | Some content =>
             match planned (step (EvOpen path) w) with
             | Some _ => (false, "")
             | None => (String.eqb (hex (digest content)) wantH, hex (digest content))
             end
         end
     end,
     match planned w with
     | Some _ => step (EvOpen path) w
     | None =>
         match fs w !! path with
         | None => step (EvOpen path) w
         | Some _ => step (EvRead path) (step (EvOpen path) w)
         end
     end).
Proof.
  unfold validateFileMD5, bind, ret. rewrite os_Open_eq.
  destruct (planned w); [reflexivity|].
  destruct (fs w !! path) as [content|] eqn:Hf; [|reflexivity].
  cbv beta iota. rewrite io_Copy_from_eq. cbv beta iota.
  change (fs (step (EvOpen path) w)) with (fs w). rewrite Hf.
  destruct (planned (step (EvOpen path) w)); reflexivity.
Qed.

(** ** Symbolic execution *)

Ltac world_fields :=
  cbn [fst snd now fs net log step add_event set_fs set_faults app].

Ltac run_step :=
  first
    [ rewrite os_Stat_eq | rewrite validateFileMD5_eq | rewrite os_Create_eq
    | rewrite ctxhttp_Get_eq | rewrite io_Copy_to_eq | rewrite os_Remove_eq
    | rewrite alter_insert_eq | rewrite lookup_insert_eq | rewrite delete_insert_eq
    | match goal with
      | |- context [match planned ?w with _ => _ end] => destruct (planned w) eqn:?
      | |- context [match fs ?w !! ?p with _ => _ end] => destruct (fs w !! p) eqn:?
      | |- context [match get_outcome ?c ?w ?u with _ => _ end] =>
          destruct (get_outcome c w u) eqn:?
      | |- context [match BodyErr ?r with _ => _ end] => destruct (BodyErr r) eqn:?
      | |- context [if String.eqb ?a ?b then _ else _] =>
          let H := fresh "Heqb" in
          destruct (String.eqb a b) eqn:H;
          [apply String.eqb_eq in H | apply String.eqb_neq in H]
      end ].

(** Runs a monadic program one system call at a time, splitting on what
    the environment answers. *)
Ltac run := unfold bind, ret; cbv beta iota; repeat (run_step; cbv beta iota; world_fields).

(** ** Every call of DownloadServer goes one of the ways of [download_outcome] *)

Ltac outcome_side :=
  first [ eassumption | reflexivity | congruence
        | left; reflexivity | right; reflexivity
        | eexists; reflexivity
        | eexists; symmetry; apply firstn_all ].

Lemma DownloadServer_outcome_run
    (digest : list byte -> list byte) (ctx : Context)
    (version : Version) (path : string) (w : World) :
  exists evs : list event,
    log (snd (DownloadServer digest ctx version path w)) = (log w ++ evs)%list
    /\ download_outcome digest ctx version path w
         (fst (DownloadServer digest ctx version path w))
         (fs (snd (DownloadServer digest ctx version path w))) evs
    /\ now (snd (DownloadServer digest ctx version path w)) = now w
    /\ net (snd (DownloadServer digest ctx version path w)) = net w.
Proof.
  unfold DownloadServer. run.
  all: rewrite <- ?app_assoc; world_fields.
  all: first [ exists []; split; [symmetry; apply app_nil_r|]
             | eexists; split; [reflexivity|] ].
  all: (split; [|split; reflexivity]).
  all: solve [econstructor; outcome_side].
Qed.

Lemma DownloadServer_outcome
    (digest : list byte -> list byte) (ctx : Context)
    (version : Version) (path : string) (w w' : World) (r : option error) :
  DownloadServer digest ctx version path w = (r, w') ->
  exists evs : list event,
    log w' = (log w ++ evs)%list
    /\ download_outcome digest ctx version path w r (fs w') evs
    /\ now w' = now w /\ net w' = net w.
Proof.
  intros H. pose proof (DownloadServer_outcome_run digest ctx version path w) as Hrun.
  rewrite H in Hrun. exact Hrun.
Qed.

(** ** waitForStart: what it leaves alone, and termination *)

Lemma waitForStart_loop_frame (fuel : nat) (c : Client) (ctx : Context)
    (w w' : World) (r : option (option error)) :
  waitForStart_loop fuel c ctx w = (r, w') ->
  exec_output w' = exec_output w /\ exec_start w' = exec_start w
  /\ child w' = child w /\ fs w' = fs w
  /\ exists n : nat, log w' = (log w ++ replicate n (EvVersion (client_url c)))%list.
Proof.
  revert w. induction fuel as [|fuel IH]; intros w H.
  - inversion H; subst. repeat split. exists 0%nat. symmetry. apply app_nil_r.
  - cbn [waitForStart_loop] in H. unfold bind in H.
    destruct (select_Tick_Done 500 ctx w) as [ev w1] eqn:Hsel.
    assert (Hw1 : exec_output w1 = exec_output w /\ exec_start w1 = exec_start w
                  /\ child w1 = child w /\ fs w1 = fs w /\ log w1 = log w
                  /\ probe w1 = probe w).
    { unfold select_Tick_Done in Hsel.
      repeat case_match; inversion Hsel; subst; repeat split. }
    destruct Hw1 as (Ho & Hs & Hc & Hf & Hl & Hp).
    destruct ev.
    + unfold Client_Version, bind, emit in H. cbn in H.
      destruct (probe w1 (client_url c) (now w1)) as [duration [e|v]] eqn:Hprobe.
      * apply IH in H. cbn in H. destruct H as (-> & -> & -> & -> & n & ->).
        repeat split; try assumption.
        exists (S n). rewrite Hl, <- app_assoc. reflexivity.
      * inversion H; subst. cbn. repeat split; try assumption.
        exists 1%nat. rewrite Hl. reflexivity.
    + unfold ctx_Err, ret in H. inversion H; subst. repeat split; try assumption.
      exists 0%nat. rewrite Hl. symmetry. apply app_nil_r.
Qed.

(** With a context that has a deadline the loop ends: every iteration
    that does not return moves the clock by at least the period. *)
Lemma waitForStart_loop_terminates (d : nat) (c : Client) (ctx : Context) :
  done_at ctx = Some d ->
  forall (fuel : nat) (w : World),
    (d <= now w + 500 * fuel)%nat ->
    fst (waitForStart_loop (S fuel) c ctx w) <> None.
Proof.
  intros Hd fuel. induction fuel as [|fuel IH]; intros w Hle.
  - cbn [waitForStart_loop]. unfold bind, select_Tick_Done. rewrite Hd.
    destruct (Nat.leb_spec d (now w)) as [_|Hlt]; [|lia].
    unfold ctx_Err, ret. cbn. discriminate.
  - remember (S fuel) as k eqn:Hk. cbn [waitForStart_loop].
    unfold bind, select_Tick_Done. rewrite Hd.
    assert (Hrec : forall w1 : World, (now w + 500 <= now w1)%nat ->
              fst (waitForStart_loop k c ctx w1) <> None).
    { intros w1 Hw1. subst k. apply IH. lia. }
    assert (Htick : forall w1 : World, (now w + 500 <= now w1)%nat ->
              fst (let '(a, w2) := Client_Version c ctx w1 in
                   match a with
                   | inl _ => waitForStart_loop k c ctx
                   | inr _ => fun w3 => (Some None, w3)
                   end w2) <> None).
    { intros w1 Hw1. unfold Client_Version, bind, emit. cbn.
      destruct (probe w1 (client_url c) (now w1)) as [duration [e|v]].
      - apply Hrec. cbn. lia.
      - cbn. discriminate. }
    destruct (d <=? now w)%nat; [unfold ctx_Err, ret; cbn; discriminate|].
    destruct (d <? now w + 500)%nat; [unfold ctx_Err, ret; cbn; discriminate|].
    destruct (d =? now w + 500)%nat.
    + destruct (tick_first w (now w + 500)%nat).
      * apply Htick. cbn. lia.
      * unfold ctx_Err, ret. cbn. discriminate.
    + apply Htick. cbn. lia.
Qed.

(** ** Start: the readiness wait fails *)




(** With a deadline, Start returns: the bound on the readiness loop is
    never what ends it once it exceeds the number of periods left. *)
Lemma Start_returns_by_deadline (s : Server) (ctx : Context) (d : nat) (w : World) :
  done_at ctx = Some d ->
  forall fuel : nat, (d <= now w + 500 * fuel)%nat ->
    fst (Start (S fuel) s ctx w) <> None.
Proof.
  intros Hd fuel Hle. unfold Start, context_WithCancel, bind.
  destruct (cmd_Start _ w) as [[e|] w0] eqn:Hs.
  - unfold cancel, bind, emit, ret. cbn. destruct (child _); discriminate.
  - assert (Hnow : now w0 = now w).
    { unfold cmd_Start, bind, emit in Hs. cbn in Hs.
      destruct (exec_start w _); inversion Hs; reflexivity. }
    pose proof (waitForStart_loop_terminates d (NewClient (url s)) ctx Hd fuel w0) as Ht.
    rewrite Hnow in Ht. specialize (Ht Hle).
    unfold waitForStart.
    destruct (waitForStart_loop (S fuel) _ ctx w0) as [[[e|]|] w1]; cbn in Ht.
    + unfold cancel, cmd_CombinedOutput, bind, emit, ret. cbn.
      destruct (child w1); cbn;
        repeat match goal with
               | |- context [match ?x with _ => _ end] => destruct x
               end; discriminate.
    + unfold ret. discriminate.
    + contradiction.
Qed.

(** ** validateFileMD5 *)

Lemma clear_planned (n : nat) (w : World) :
  clear (S n) (faults w) = true -> planned w = None.
Proof. unfold planned. destruct (faults w) as [|[x|] l]; cbn; congruence. Qed.

Lemma clear_step (n : nat) (e : event) (w : World) :
  clear (S n) (faults w) = true -> clear n (faults (step e w)) = true.
Proof.
  cbn. destruct (faults w) as [|[x|] l]; cbn; try congruence.
  intros _. destruct n; reflexivity.
Qed.

(** C5: for a file that can be opened and read, validateFileMD5 returns
    the pair of the comparison and of the hex-encoded MD5 digest of the
    content, so it returns (true, h) exactly when that digest is h; when
    the file is missing, or opening or reading it fails, it returns
    (false, empty string), and no error. *)
Theorem validateFileMD5_correct (path wantH : string) (w : World) :
  (forall content : list byte,
     fs w !! path = Some content ->
     clear 2 (faults w) = true ->
     fst (validateFileMD5 MD5.Sum path wantH w)
     = (String.eqb (hex (MD5.Sum content)) wantH, hex (MD5.Sum content))
     /\ (fst (validateFileMD5 MD5.Sum path wantH w) = (true, wantH)
         <-> hex (MD5.Sum content) = wantH))
  /\ (fs w !! path = None
      \/ planned w <> None
      \/ planned (step (EvOpen path) w) <> None ->
      fst (validateFileMD5 MD5.Sum path wantH w) = (false, "")).
Proof.
  rewrite validateFileMD5_eq. cbn [fst]. split.
  - intros content Hf Hclear.
    rewrite (clear_planned 1 w Hclear), Hf.
    rewrite (clear_planned 0 _ (clear_step 1 (EvOpen path) w Hclear)).
    split; [reflexivity|]. split.
    + intros H. congruence.
    + intros <-. rewrite String.eqb_refl. reflexivity.
  - intros H. destruct (planned w) as [x|]; [reflexivity|].
    destruct (fs w !! path) as [content|]; [|reflexivity].
    destruct (planned (step (EvOpen path) w)) as [y|]; [reflexivity|].
    destruct H as [H|[H|H]]; congruence.
Qed.

Lemma validateFileMD5_correct_witness :
  fst (validateFileMD5 MD5.Sum tmp_jar "900150983cd24fb0d6963f7d28e17f72"
         (on_disk (list_byte_of_string "abc")))
  = (true, "900150983cd24fb0d6963f7d28e17f72")
  /\ fst (validateFileMD5 MD5.Sum tmp_jar "900150983cd24fb0d6963f7d28e17f72" quiet)
     = (false, "").
Proof.
  split.
  - assert (Hf : fs (on_disk (list_byte_of_string "abc")) !! tmp_jar
                 = Some (list_byte_of_string "abc")) by (vm_compute; reflexivity).
    assert (Hc : clear 2 (faults (on_disk (list_byte_of_string "abc"))) = true)
      by reflexivity.
    apply (proj1 (validateFileMD5_correct tmp_jar "900150983cd24fb0d6963f7d28e17f72"
                    (on_disk (list_byte_of_string "abc")))
             (list_byte_of_string "abc") Hf Hc).
    vm_compute. reflexivity.
  - apply (proj2 (validateFileMD5_correct tmp_jar "900150983cd24fb0d6963f7d28e17f72" quiet)).
    left. vm_compute. reflexivity.
Defined.

(** ** DownloadServer: what a failed call leaves at the destination *)

Example download_refused :
  fst (DownloadServer MD5.Sum Background Version114 tmp_jar quiet)
  = Some (ErrUnableToDownload (downloadURL Version114) (LibError "connection refused"))
  /\ fs (snd (DownloadServer MD5.Sum Background Version114 tmp_jar quiet)) !! tmp_jar
     = Some [].
Proof. vm_compute. split; reflexivity. Qed.

Example download_not_found :
  fst (DownloadServer MD5.Sum Background Version114 tmp_jar not_found)
  = Some (ErrInvalidMD5 "9d1ead73e678fa2f51a70a933b0bf017")
  /\ fs (snd (DownloadServer MD5.Sum Background Version114 tmp_jar not_found)) !! tmp_jar
     = None
  /\ new_events not_found
       (snd (DownloadServer MD5.Sum Background Version114 tmp_jar not_found))
     = [EvStat tmp_jar; EvCreate tmp_jar; EvGet (downloadURL Version114);
        EvWrite tmp_jar (list_byte_of_string "Not Found");
        EvOpen tmp_jar; EvRead tmp_jar; EvRemove tmp_jar].
Proof. vm_compute. repeat split; reflexivity. Qed.

(** C1 as the spec words it does not hold: when the GET fails, the call
    fails and the file that os.Create has just truncated stays at the
    destination, empty, with a checksum that is not the expected one. *)
Lemma failed_download_leaves_wrong_file :
  ~ (forall (ctx : Context) (version : Version) (path : string)
            (w w' : World) (err : error),
       DownloadServer MD5.Sum ctx version path w = (Some err, w') ->
       forall content : list byte,
         fs w' !! path = Some content ->
         hex (MD5.Sum content) = md5s_get version).
Proof.
  intros H.
  destruct download_refused as [Hr Hf].
  destruct (DownloadServer MD5.Sum Background Version114 tmp_jar quiet) as [r w'] eqn:E.
  cbn [fst snd] in Hr, Hf. subst r.
  specialize (H _ _ _ _ _ _ E [] Hf).
  vm_compute in H. discriminate H.
Qed.

(** C1, amended: when DownloadServer returns the checksum-mismatch error
    (invalid md5 with the actual hash), the destination file has been
    deleted: no file is left at the destination path. *)
Theorem DownloadServer_mismatch_removes
    (digest : list byte -> list byte) (ctx : Context)
    (version : Version) (path : string) (w w' : World) (md5 : string) :
  DownloadServer digest ctx version path w = (Some (ErrInvalidMD5 md5), w') ->
  fs w' !! path = None.
Proof.
  intros H. apply DownloadServer_outcome in H as (evs & _ & Hout & _).
  inversion Hout; subst. apply lookup_delete_eq.
Qed.

Lemma DownloadServer_mismatch_removes_witness :
  DownloadServer MD5.Sum Background Version114 tmp_jar not_found
  = (Some (ErrInvalidMD5 "9d1ead73e678fa2f51a70a933b0bf017"),
     snd (DownloadServer MD5.Sum Background Version114 tmp_jar not_found))
  /\ fs (snd (DownloadServer MD5.Sum Background Version114 tmp_jar not_found)) !! tmp_jar
     = None.
Proof.
  assert (E : DownloadServer MD5.Sum Background Version114 tmp_jar not_found
              = (Some (ErrInvalidMD5 "9d1ead73e678fa2f51a70a933b0bf017"),
                 snd (DownloadServer MD5.Sum Background Version114 tmp_jar not_found)))
    by (vm_compute; reflexivity).
  split; [exact E|].
  exact (DownloadServer_mismatch_removes MD5.Sum Background Version114 tmp_jar
           not_found _ _ E).
Defined.

(** ** DownloadServer: a GET that fails *)

Lemma gets_In (u : string) (evs : list event) :
  In (EvGet u) evs -> gets evs <> 0%nat.
Proof.
  unfold gets. induction evs as [|e evs IH]; intros Hin; [destruct Hin|].
  destruct Hin as [->|Hin]; [cbn; discriminate|].
  cbn. destruct (is_get e); [cbn; discriminate|]. apply IH, Hin.
Qed.

(** C2 as the spec words it does not hold for a response with a non-2xx
    status: a 404 is a response like any other for ctxhttp.Get, its body
    is saved and validated, and the call ends with the checksum-mismatch
    error and the file removed, not with a download error and the file
    left in place. *)
Lemma non_2xx_is_not_a_download_error :
  ~ (forall (ctx : Context) (version : Version) (path : string)
            (w w' : World) (r : option error) (resp : Response),
       DownloadServer MD5.Sum ctx version path w = (r, w') ->
       In (EvGet (downloadURL version)) (new_events w w') ->
       get_outcome ctx w (downloadURL version) = inr resp ->
       ~ (200 <= StatusCode resp < 300) ->
       (exists cause : error,
          r = Some (ErrUnableToDownload (downloadURL version) cause))
       /\ fs w' !! path = Some []).
Proof.
  intros H.
  destruct download_not_found as (Hr & Hf & Hev).
  destruct (DownloadServer MD5.Sum Background Version114 tmp_jar not_found)
    as [r w'] eqn:E.
  cbn [fst snd] in Hr, Hf, Hev.
  destruct (H Background Version114 tmp_jar not_found w' r
              {| StatusCode := 404; Body := list_byte_of_string "Not Found";
                 BodyErr := None |} E) as [_ Hleft].
  - rewrite Hev. right. right. left. reflexivity.
  - reflexivity.
  - cbn. lia.
  - rewrite Hf in Hleft. discriminate Hleft.
Qed.

(** *** DownloadServer never looks at the status code *)

Lemma planned_with_status (st : Z) (w : World) :
  planned (with_status st w) = planned w.
Proof. reflexivity. Qed.

Lemma get_outcome_with_status (st : Z) (ctx : Context) (w : World) (u : string) :
  get_outcome ctx (with_status st w) u = restatus st (get_outcome ctx w u).
Proof. unfold get_outcome. cbn. destruct (ctx_done ctx (now w)); reflexivity. Qed.

Lemma status_blind_ret (st : Z) {A : Type} (a : A) : status_blind st (ret a).
Proof. intros w. reflexivity. Qed.

Lemma status_blind_bind (st : Z) {A B : Type} (m : M A) (k : A -> M B) :
  status_blind st m -> (forall a, status_blind st (k a)) -> status_blind st (bind m k).
Proof.
  intros Hm Hk w. unfold bind. rewrite Hm.
  destruct (m w) as [a w1]. cbn [fst snd]. apply Hk.
Qed.

Lemma status_blind_os_Stat (st : Z) (path : string) : status_blind st (os_Stat path).
Proof. intros w. rewrite !os_Stat_eq. reflexivity. Qed.

Lemma status_blind_os_Create (st : Z) (path : string) :
  status_blind st (os_Create path).
Proof.
  intros w. rewrite !os_Create_eq. cbn [fst snd].
  rewrite planned_with_status. destruct (planned w); reflexivity.
Qed.

Lemma status_blind_os_Remove (st : Z) (path : string) :
  status_blind st (os_Remove path).
Proof.
  intros w. rewrite !os_Remove_eq. cbn [fst snd].
  rewrite planned_with_status. change (fs (with_status st w)) with (fs w).
  destruct (planned w); [reflexivity|]. destruct (fs w !! path); reflexivity.
Qed.

Lemma status_blind_io_Copy_to (st : Z) (out : File) (resp : Response) :
  status_blind st (io_Copy_to out resp).
Proof.
  intros w. rewrite !io_Copy_to_eq. cbn [fst snd].
  rewrite planned_with_status. destruct (planned w); reflexivity.
Qed.

Lemma status_blind_validateFileMD5 (st : Z) (digest : list byte -> list byte)
    (path wantH : string) :
  status_blind st (validateFileMD5 digest path wantH).
Proof.
  intros w. rewrite !validateFileMD5_eq. cbn [fst snd].
  rewrite planned_with_status. change (fs (with_status st w)) with (fs w).
  destruct (planned w); [reflexivity|]. destruct (fs w !! path); reflexivity.
Qed.

(** The GET is the one call whose result shows the status; what follows
    it must not depend on it. *)
Lemma status_blind_after_Get (st : Z) {B : Type} (ctx : Context) (u : string)
    (k : error + Response -> M B) :
  (forall g, status_blind st (k g)) ->
  (forall g, k (restatus st g) = k g) ->
  status_blind st (bind (ctxhttp_Get ctx u) k).
Proof.
  intros Hk Hre w. unfold bind. rewrite !ctxhttp_Get_eq.
  rewrite get_outcome_with_status, Hre.
  change (add_event (EvGet u) (with_status st w))
    with (with_status st (add_event (EvGet u) w)).
  apply Hk.
Qed.

Lemma DownloadServer_status_blind
    (st : Z) (digest : list byte -> list byte) (ctx : Context)
    (version : Version) (path : string) :
  status_blind st (DownloadServer digest ctx version path).
Proof.
  unfold DownloadServer.
  destruct (String.eqb (md5s_get version) ""); [apply status_blind_ret|].
  apply status_blind_bind; [apply status_blind_os_Stat|]. intros serr.
  apply status_blind_bind.
  - destruct serr; [apply status_blind_ret|].
    apply status_blind_bind; [apply status_blind_validateFileMD5|].
    intros [ok md5]. apply status_blind_ret.
  - intros [|]; [apply status_blind_ret|].
    apply status_blind_bind; [apply status_blind_os_Create|].
    intros [err|out]; [apply status_blind_ret|].
    apply status_blind_after_Get.
    + intros [err|resp]; [apply status_blind_ret|].
      apply status_blind_bind; [apply status_blind_io_Copy_to|].
      intros [err|]; [apply status_blind_ret|].
      apply status_blind_bind; [apply status_blind_validateFileMD5|].
      intros [[|] md5]; [apply status_blind_ret|].
      apply status_blind_bind; [apply status_blind_os_Remove|].
      intros [err|]; apply status_blind_ret.
    + intros [err|resp]; reflexivity.
Qed.

(** C2, amended: (1) when the GET that DownloadServer issues fails (the
    transport fails, or the context is done), the call returns the
    download error holding the URL and that cause, and the destination is
    left as os.Create made it: present and empty, the other files
    untouched.  (2) A response with a non-2xx status is not such a
    failure: the status code has no influence on the call, which returns
    the same result and leaves the same world whatever status the
    responses carry. *)
Theorem DownloadServer_transport_failure
    (digest : list byte -> list byte) (ctx : Context)
    (version : Version) (path : string) :
  (forall (w w' : World) (r : option error) (cause : error),
     get_outcome ctx w (downloadURL version) = inl cause ->
     DownloadServer digest ctx version path w = (r, w') ->
     In (EvGet (downloadURL version)) (new_events w w') ->
     r = Some (ErrUnableToDownload (downloadURL version) cause)
     /\ fs w' = <[path := []]> (fs w))
  /\ (forall (st : Z) (w : World),
        DownloadServer digest ctx version path (with_status st w)
        = (fst (DownloadServer digest ctx version path w),
           with_status st (snd (DownloadServer digest ctx version path w)))).
Proof.
  split.
  - intros w w' r cause Hget H Hin.
    apply DownloadServer_outcome in H as (evs & Hlog & Hout & _).
    rewrite (new_events_app _ _ _ Hlog) in Hin.
    pose proof (gets_In _ _ Hin) as Hgets.
    inversion Hout; subst; try congruence.
    + destruct Hin.
    + cbn in Hgets. congruence.
    + split; [congruence|reflexivity].
  - intros st. apply DownloadServer_status_blind.
Qed.

Lemma DownloadServer_transport_failure_witness :
  get_outcome Background quiet (downloadURL Version114)
  = inl (LibError "connection refused")
  /\ fst (DownloadServer MD5.Sum Background Version114 tmp_jar quiet)
     = Some (ErrUnableToDownload (downloadURL Version114)
               (LibError "connection refused"))
  /\ fs (snd (DownloadServer MD5.Sum Background Version114 tmp_jar quiet))
     = <[tmp_jar := []]> (fs quiet)
  /\ DownloadServer MD5.Sum Background Version114 tmp_jar (with_status 200 not_found)
     = (fst (DownloadServer MD5.Sum Background Version114 tmp_jar not_found),
        with_status 200
          (snd (DownloadServer MD5.Sum Background Version114 tmp_jar not_found))).
Proof.
  split; [reflexivity|].
  assert (E : DownloadServer MD5.Sum Background Version114 tmp_jar quiet
              = (fst (DownloadServer MD5.Sum Background Version114 tmp_jar quiet),
                 snd (DownloadServer MD5.Sum Background Version114 tmp_jar quiet)))
    by (destruct (DownloadServer MD5.Sum Background Version114 tmp_jar quiet);
        reflexivity).
  destruct (DownloadServer_transport_failure MD5.Sum Background Version114 tmp_jar)
    as [Hfail Hblind].
  split; [|split].
  - apply (Hfail quiet _ _ (LibError "connection refused") eq_refl E).
    vm_compute. right. right. left. reflexivity.
  - apply (Hfail quiet _ _ (LibError "connection refused") eq_refl E).
    vm_compute. right. right. left. reflexivity.
  - exact (Hblind 200 not_found).
Defined.

(** ** DownloadServer: the file is already there *)

Lemma md5s_supported (version : Version) :
  md5s_get version <> "" -> md5s !! version = Some (md5s_get version).
Proof.
  unfold md5s_get. destruct (md5s !! version); [reflexivity|contradiction].
Qed.

Lemma DownloadServer_short_circuit
    (digest : list byte -> list byte) (ctx : Context)
    (version : Version) (path : string) (w : World) (content : list byte) :
  md5s_get version <> "" ->
  fs w !! path = Some content ->
  hex (digest content) = md5s_get version ->
  clear 3 (faults w) = true ->
  DownloadServer digest ctx version path w
  = (None, step (EvRead path) (step (EvOpen path) (step (EvStat path) w))).
Proof.
  intros Hv Hf Hd Hclear. unfold DownloadServer, bind, ret.
  apply String.eqb_neq in Hv. rewrite Hv.
  rewrite os_Stat_eq, (clear_planned 2 w Hclear), Hf. cbv beta iota.
  rewrite validateFileMD5_eq.
  pose proof (clear_step 2 (EvStat path) w Hclear) as Hc1.
  rewrite (clear_planned 1 _ Hc1).
  rewrite (clear_planned 0 _ (clear_step 1 (EvOpen path) _ Hc1)).
  change (fs (step (EvStat path) w)) with (fs w). rewrite Hf, Hd, String.eqb_refl.
  reflexivity.
Qed.

Lemma gets_app (l k : list event) : gets (l ++ k) = (gets l + gets k)%nat.
Proof. unfold gets. rewrite List.filter_app. apply length_app. Qed.

(** C4: (1) when a file is at the destination, its checksum is the
    expected one and it can be examined (no failure of Stat, Open or the
    read), DownloadServer returns nil after examining it: no GET, no
    write, the files unchanged.  (2) Hence, after a call that returned nil,
    a second call with the same version and destination returns nil
    without any network transfer, so both calls together issue the GETs of
    the first one: at most one, and exactly one when no file with the
    expected checksum was there at the start. *)
Theorem DownloadServer_idempotent
    (digest : list byte -> list byte) (ctx : Context)
    (version : Version) (path : string) :
  (forall (w : World) (wantH : string) (content : list byte),
     md5s !! version = Some wantH ->
     fs w !! path = Some content ->
     hex (digest content) = wantH ->
     clear 3 (faults w) = true ->
     exists w' : World,
       DownloadServer digest ctx version path w = (None, w')
       /\ fs w' = fs w
       /\ new_events w w' = [EvStat path; EvOpen path; EvRead path])
  /\ (forall w w1 : World,
        DownloadServer digest ctx version path w = (None, w1) ->
        clear 3 (faults w1) = true ->
        exists w2 : World,
          DownloadServer digest ctx version path w1 = (None, w2)
          /\ fs w2 = fs w1
          /\ gets (new_events w1 w2) = 0%nat
          /\ gets (new_events w w2) = gets (new_events w w1)
          /\ (gets (new_events w w1) <= 1)%nat
          /\ ((forall c, fs w !! path = Some c -> hex (digest c) <> md5s_get version) ->
              gets (new_events w w2) = 1%nat)).
Proof.
  assert (Hshort : forall (w : World) (content : list byte),
            md5s_get version <> "" ->
            fs w !! path = Some content ->
            hex (digest content) = md5s_get version ->
            clear 3 (faults w) = true ->
            exists w' : World,
              DownloadServer digest ctx version path w = (None, w')
              /\ fs w' = fs w
              /\ log w' = (log w ++ [EvStat path; EvOpen path; EvRead path])%list).
  { intros w content Hv Hf Hd Hclear. eexists. split.
    - apply (DownloadServer_short_circuit digest ctx version path w content); assumption.
    - split; [reflexivity|]. cbn. rewrite <- !app_assoc. reflexivity. }
  split.
  - intros w wantH content Hv Hf Hd Hclear.
    destruct (md5s_get_supported _ _ Hv) as [Hget Hne].
    destruct (Hshort w content) as (w' & Hrun & Hfs & Hlog);
      [congruence|assumption|congruence|assumption|].
    exists w'. repeat split; [assumption|assumption|].
    apply new_events_app, Hlog.
  - intros w w1 Hfirst Hclear.
    apply DownloadServer_outcome in Hfirst as (evs & Hlog1 & Hout & _).
    assert (Hvalid : md5s_get version <> ""
              /\ (exists content, fs w1 !! path = Some content
                                  /\ hex (digest content) = md5s_get version)
              /\ (gets evs <= 1)%nat
              /\ ((forall c, fs w !! path = Some c -> hex (digest c) <> md5s_get version) ->
                  gets evs = 1%nat)).
    { inversion Hout; subst.
      - split; [assumption|]. split; [|split].
        + eexists. split; eassumption.
        + cbn. lia.
        + intros Hno. exfalso. eapply Hno; eassumption.
      - split; [assumption|]. split; [|split].
        + eexists. split; [apply lookup_insert_eq|assumption].
        + lia.
        + intros _. assumption. }
    destruct Hvalid as (Hv & (content & Hf & Hd) & Hle & Hone).
    destruct (Hshort w1 content Hv Hf Hd Hclear) as (w2 & Hrun & Hfs & Hlog2).
    exists w2. split; [assumption|]. split; [assumption|].
    rewrite (new_events_app _ _ _ Hlog2), (new_events_app _ _ _ Hlog1).
    assert (Hlog : log w2 = (log w ++ evs ++ [EvStat path; EvOpen path; EvRead path])%list)
      by (rewrite Hlog2, Hlog1, <- app_assoc; reflexivity).
    rewrite (new_events_app _ _ _ Hlog), gets_app.
    cbn. repeat split; [lia|assumption|].
    intros Hno. rewrite (Hone Hno). reflexivity.
Qed.

Lemma DownloadServer_idempotent_witness :
  DownloadServer digest114 Background Version114 tmp_jar serving
  = (None, snd (DownloadServer digest114 Background Version114 tmp_jar serving))
  /\ gets (new_events serving
             (snd (DownloadServer digest114 Background Version114 tmp_jar serving)))
     = 1%nat
  /\ exists w2 : World,
       DownloadServer digest114 Background Version114 tmp_jar
         (snd (DownloadServer digest114 Background Version114 tmp_jar serving))
       = (None, w2)
       /\ fs w2 = fs (snd (DownloadServer digest114 Background Version114 tmp_jar serving))
       /\ gets (new_events serving w2) = 1%nat.
Proof.
  assert (E : DownloadServer digest114 Background Version114 tmp_jar serving
              = (None, snd (DownloadServer digest114 Background Version114 tmp_jar serving)))
    by (vm_compute; reflexivity).
  assert (G : gets (new_events serving
                      (snd (DownloadServer digest114 Background Version114 tmp_jar serving)))
              = 1%nat) by (vm_compute; reflexivity).
  split; [exact E|]. split; [exact G|].
  destruct (proj2 (DownloadServer_idempotent digest114 Background Version114 tmp_jar)
              serving _ E eq_refl) as (w2 & Hrun & Hfs & _ & Hsame & _).
  exists w2. split; [exact Hrun|]. split; [exact Hfs|].
  rewrite Hsame. exact G.
Defined.

(** * Further properties of server.go *)

(** ** DownloadServer: what a call leaves behind *)

(** When DownloadServer returns nil, the version is in the table and the
    destination holds a file whose checksum is the table's entry. *)
Theorem DownloadServer_success_valid
    (digest : list byte -> list byte) (ctx : Context)
    (version : Version) (path : string) (w w' : World) :
  DownloadServer digest ctx version path w = (None, w') ->
  exists (wantH : string) (content : list byte),
    md5s !! version = Some wantH
    /\ fs w' !! path = Some content
    /\ hex (digest content) = wantH.
Proof.
  intros H. apply DownloadServer_outcome in H as (evs & _ & Hout & _).
  inversion Hout; subst; exists (md5s_get version).
  - eexists. split; [apply md5s_supported; assumption|]. split; eassumption.
  - eexists. split; [apply md5s_supported; assumption|].
    split; [apply lookup_insert_eq|assumption].
Qed.

Lemma DownloadServer_success_valid_witness :
  DownloadServer digest_PK Background Version114 tmp_jar serving
  = (None, snd (DownloadServer digest_PK Background Version114 tmp_jar serving))
  /\ exists (wantH : string) (content : list byte),
       md5s !! Version114 = Some wantH
       /\ fs (snd (DownloadServer digest_PK Background Version114 tmp_jar serving))
            !! tmp_jar = Some content
       /\ hex (digest_PK content) = wantH.
Proof.
  assert (E : DownloadServer digest_PK Background Version114 tmp_jar serving
              = (None, snd (DownloadServer digest_PK Background Version114 tmp_jar serving)))
    by (vm_compute; reflexivity).
  split; [exact E|].
  exact (DownloadServer_success_valid digest_PK Background Version114 tmp_jar serving _ E).
Defined.



(** DownloadServer reports an unsupported version exactly for the
    versions that are not in the table: no entry of the table is the empty
    string that the lookup gives for a missing key. *)
Theorem DownloadServer_unsupported_iff
    (digest : list byte -> list byte) (ctx : Context)
    (version : Version) (path : string) (w : World) :
  fst (DownloadServer digest ctx version path w) = Some (ErrUnsupportedVersion version)
  <-> md5s !! version = None.
Proof.
  split.
  - intros H.
    destruct (DownloadServer digest ctx version path w) as [r w'] eqn:E.
    cbn [fst] in H. subst r.
    apply DownloadServer_outcome in E as (evs & _ & Hout & _).
    inversion Hout; subst.
    destruct (md5s !! version) as [wantH|] eqn:Hv; [|reflexivity].
    destruct (md5s_get_supported _ _ Hv); congruence.
  - intros H. unfold DownloadServer. rewrite (md5s_get_unsupported _ H). reflexivity.
Qed.

(** When DownloadServer fails to create the destination file, nothing was
    fetched and no file was changed. *)
Theorem DownloadServer_create_failure
    (digest : list byte -> list byte) (ctx : Context)
    (version : Version) (path : string) (w w' : World) (err : error) :
  DownloadServer digest ctx version path w = (Some (ErrCreatingFile err), w') ->
  fs w' = fs w /\ gets (new_events w w') = 0%nat.
Proof.
  intros H. apply DownloadServer_outcome in H as (evs & Hlog & Hout & _).
  rewrite (new_events_app _ _ _ Hlog).
  inversion Hout; subst. split; [reflexivity|assumption].
Qed.

Lemma DownloadServer_create_failure_witness :
  DownloadServer MD5.Sum Background Version114 tmp_jar
    (set_plan [None; Some {| fault_err := LibError "permission denied";
                             fault_done := 0 |}] quiet)
  = (Some (ErrCreatingFile (LibError "permission denied")),
     snd (DownloadServer MD5.Sum Background Version114 tmp_jar
            (set_plan [None; Some {| fault_err := LibError "permission denied";
                                     fault_done := 0 |}] quiet)))
  /\ gets (new_events
             (set_plan [None; Some {| fault_err := LibError "permission denied";
                                      fault_done := 0 |}] quiet)
             (snd (DownloadServer MD5.Sum Background Version114 tmp_jar
                     (set_plan [None; Some {| fault_err := LibError "permission denied";
                                              fault_done := 0 |}] quiet))))
     = 0%nat.
Proof.
  assert (E : DownloadServer MD5.Sum Background Version114 tmp_jar
                (set_plan [None; Some {| fault_err := LibError "permission denied";
                                         fault_done := 0 |}] quiet)
              = (Some (ErrCreatingFile (LibError "permission denied")),
                 snd (DownloadServer MD5.Sum Background Version114 tmp_jar
                        (set_plan [None; Some {| fault_err := LibError "permission denied";
                                                 fault_done := 0 |}] quiet))))
    by (vm_compute; reflexivity).
  split; [exact E|].
  exact (proj2 (DownloadServer_create_failure MD5.Sum Background Version114 tmp_jar
                  _ _ _ E)).
Defined.

(** When copying the body fails (the body breaks off, or a write fails),
    DownloadServer returns the saving error without removing anything: the
    destination holds the bytes written so far, a prefix of the body that
    the GET delivered. *)
Theorem DownloadServer_copy_failure
    (digest : list byte -> list byte) (ctx : Context)
    (version : Version) (path : string) (w w' : World) (err : error) :
  DownloadServer digest ctx version path w = (Some (ErrSavingDownload err), w') ->
  exists (resp : Response) (n : nat),
    get_outcome ctx w (downloadURL version) = inr resp
    /\ fs w' !! path = Some (take n (Body resp)).
Proof.
  intros H. apply DownloadServer_outcome in H as (evs & _ & Hout & _).
  inversion Hout as [| | | |resp err' data evs' Hv Hget [n Hn] Hgets| | |]; subst.
  exists resp, n. split; [assumption|apply lookup_insert_eq].
Qed.

Lemma DownloadServer_copy_failure_witness :
  DownloadServer MD5.Sum Background Version114 tmp_jar breaking
  = (Some (ErrSavingDownload (LibError "unexpected EOF")),
     snd (DownloadServer MD5.Sum Background Version114 tmp_jar breaking))
  /\ exists (resp : Response) (n : nat),
       get_outcome Background breaking (downloadURL Version114) = inr resp
       /\ fs (snd (DownloadServer MD5.Sum Background Version114 tmp_jar breaking))
            !! tmp_jar = Some (take n (Body resp)).
Proof.
  assert (E : DownloadServer MD5.Sum Background Version114 tmp_jar breaking
              = (Some (ErrSavingDownload (LibError "unexpected EOF")),
                 snd (DownloadServer MD5.Sum Background Version114 tmp_jar breaking)))
    by (vm_compute; reflexivity).
  split; [exact E|].
  exact (DownloadServer_copy_failure MD5.Sum Background Version114 tmp_jar breaking _ _ E).
Defined.

(** When the downloaded file fails validation and removing it fails too,
    the error carries the hash that validation reported, the path and the
    removal error, that hash is not the expected one, and the whole body
    is still at the destination. *)
Theorem DownloadServer_remove_failure
    (digest : list byte -> list byte) (ctx : Context)
    (version : Version) (path path' : string) (w w' : World)
    (md5 : string) (err : error) :
  DownloadServer digest ctx version path w
  = (Some (ErrInvalidMD5Removing md5 path' err), w') ->
  path' = path
  /\ md5 <> md5s_get version
  /\ exists resp : Response,
       get_outcome ctx w (downloadURL version) = inr resp
       /\ fs w' !! path = Some (Body resp)
       /\ (md5 = "" \/ md5 = hex (digest (Body resp))).
Proof.
  intros H. apply DownloadServer_outcome in H as (evs & _ & Hout & _).
  inversion Hout; subst. split; [reflexivity|]. split; [assumption|].
  eexists. split; [eassumption|]. split; [apply lookup_insert_eq|assumption].
Qed.

Lemma DownloadServer_remove_failure_witness :
  DownloadServer MD5.Sum Background Version114 tmp_jar
    (set_plan [None; None; None; None; None;
               Some {| fault_err := LibError "file in use"; fault_done := 0 |}]
       not_found)
  = (Some (ErrInvalidMD5Removing "9d1ead73e678fa2f51a70a933b0bf017" tmp_jar
             (LibError "file in use")),
     snd (DownloadServer MD5.Sum Background Version114 tmp_jar
            (set_plan [None; None; None; None; None;
                       Some {| fault_err := LibError "file in use"; fault_done := 0 |}]
               not_found)))
  /\ "9d1ead73e678fa2f51a70a933b0bf017" <> md5s_get Version114.
Proof.
  assert (E : DownloadServer MD5.Sum Background Version114 tmp_jar
                (set_plan [None; None; None; None; None;
                           Some {| fault_err := LibError "file in use"; fault_done := 0 |}]
                   not_found)
              = (Some (ErrInvalidMD5Removing "9d1ead73e678fa2f51a70a933b0bf017" tmp_jar
                         (LibError "file in use")),
                 snd (DownloadServer MD5.Sum Background Version114 tmp_jar
                        (set_plan [None; None; None; None; None;
                                   Some {| fault_err := LibError "file in use";
                                           fault_done := 0 |}]
                           not_found))))
    by (vm_compute; reflexivity).
  split; [exact E|].
  exact (proj1 (proj2 (DownloadServer_remove_failure MD5.Sum Background Version114
                         tmp_jar tmp_jar _ _ _ _ E))).
Defined.

(** ** DownloadServer: the network *)

(** A call of DownloadServer issues no GET or exactly one, and that one
    asks for the URL of the requested version. *)
Theorem DownloadServer_requests
    (digest : list byte -> list byte) (ctx : Context)
    (version : Version) (path : string) (w : World) :
  List.filter is_get
    (new_events w (snd (DownloadServer digest ctx version path w))) = []
  \/ List.filter is_get
       (new_events w (snd (DownloadServer digest ctx version path w)))
     = [EvGet (downloadURL version)].
Proof.
  assert (H : exists evs : list event,
            log (snd (DownloadServer digest ctx version path w)) = (log w ++ evs)%list
            /\ (List.filter is_get evs = []
                \/ List.filter is_get evs = [EvGet (downloadURL version)])).
  { unfold DownloadServer. run.
    all: rewrite <- ?app_assoc; world_fields.
    all: first [ exists []; split; [symmetry; apply app_nil_r|]
               | eexists; split; [reflexivity|] ].
    all: first [ left; reflexivity | right; reflexivity ]. }
  destruct H as (evs & Hlog & H). rewrite (new_events_app _ _ _ Hlog). exact H.
Qed.

(** With a context that is already done, DownloadServer cannot download:
    it returns nil only for a file that was valid already, and otherwise
    fails; when it gets as far as the GET, the error is the download error
    wrapping the context's error. *)
Theorem DownloadServer_context_done
    (digest : list byte -> list byte) (ctx : Context)
    (version : Version) (path : string) (w w' : World) (r : option error) :
  ctx_done ctx (now w) = true ->
  DownloadServer digest ctx version path w = (r, w') ->
  (r = None /\ fs w' = fs w /\ gets (new_events w w') = 0%nat)
  \/ r = Some (ErrUnsupportedVersion version)
  \/ (exists err, r = Some (ErrCreatingFile err))
  \/ r = Some (ErrUnableToDownload (downloadURL version) (reason ctx)).
Proof.
  intros Hdone H.
  assert (Hget : get_outcome ctx w (downloadURL version) = inl (reason ctx))
    by (unfold get_outcome; rewrite Hdone; reflexivity).
  apply DownloadServer_outcome in H as (evs & Hlog & Hout & _).
  rewrite (new_events_app _ _ _ Hlog).
  inversion Hout; subst; try congruence.
  - right. left. reflexivity.
  - left. repeat split.
  - right. right. left. eexists. reflexivity.
  - right. right. right. congruence.
Qed.

Lemma DownloadServer_context_done_witness :
  ctx_done cancelled (now serving) = true
  /\ fst (DownloadServer MD5.Sum cancelled Version114 tmp_jar serving)
     = Some (ErrUnableToDownload (downloadURL Version114) Canceled).
Proof.
  split; [reflexivity|].
  assert (E : DownloadServer MD5.Sum cancelled Version114 tmp_jar serving
              = (Some (ErrUnableToDownload (downloadURL Version114) Canceled),
                 snd (DownloadServer MD5.Sum cancelled Version114 tmp_jar serving)))
    by (vm_compute; reflexivity).
  destruct (DownloadServer_context_done MD5.Sum cancelled Version114 tmp_jar serving
              _ _ eq_refl E) as [[H _]|[H|[[err H]|H]]]; try discriminate H.
  rewrite E. reflexivity.
Defined.

(** ** DownloadServer: downloading *)

Ltac no_fault Hplan :=
  match goal with
  | H : planned _ = Some _ |- _ =>
      unfold planned in H; cbn [faults step add_event set_fs set_faults] in H;
      rewrite Hplan in H; discriminate H
  end.

(** When the destination holds no file with the expected checksum (no
    file, or a file with another checksum), the repository answers with a
    body that has the expected checksum, and no system call fails,
    DownloadServer returns nil after one GET and the destination holds
    exactly that body, whatever was there before. *)
Theorem DownloadServer_downloads
    (digest : list byte -> list byte) (ctx : Context)
    (version : Version) (path : string) (w : World) (resp : Response) :
  md5s_get version <> "" ->
  (forall old, fs w !! path = Some old -> hex (digest old) <> md5s_get version) ->
  get_outcome ctx w (downloadURL version) = inr resp ->
  BodyErr resp = None ->
  hex (digest (Body resp)) = md5s_get version ->
  faults w = [] ->
  fst (DownloadServer digest ctx version path w) = None
  /\ fs (snd (DownloadServer digest ctx version path w)) = <[path := Body resp]> (fs w)
  /\ gets (new_events w (snd (DownloadServer digest ctx version path w))) = 1%nat.
Proof.
  intros Hv Hold Hget Hbody Hd Hplan.
  assert (H : exists evs : list event,
            log (snd (DownloadServer digest ctx version path w)) = (log w ++ evs)%list
            /\ fst (DownloadServer digest ctx version path w) = None
            /\ fs (snd (DownloadServer digest ctx version path w))
               = <[path := Body resp]> (fs w)
            /\ gets evs = 1%nat).
  { unfold DownloadServer. run.
    all: try no_fault Hplan.
    all: repeat match goal with
         | Hp : faults ?w0 = [], H : get_outcome ?c ?W ?u = _ |- _ =>
             progress change (get_outcome c W u) with (get_outcome c w0 u) in H
         | H : Some _ = Some _ |- _ => injection H as H; subst
         end.
    all: try congruence.
    all: try (exfalso; eapply Hold; [reflexivity|eassumption]).
    all: rewrite <- ?app_assoc; world_fields.
    all: eexists; split; [reflexivity|].
    all: repeat split; congruence. }
  destruct H as (evs & Hlog & Hr & Hfs & Hgets).
  rewrite (new_events_app _ _ _ Hlog). repeat split; assumption.
Qed.

Lemma DownloadServer_downloads_witness :
  fst (DownloadServer digest_PK Background Version114 tmp_jar
         (set_net (net serving) (on_disk (list_byte_of_string "abc"))))
  = None
  /\ fs (snd (DownloadServer digest_PK Background Version114 tmp_jar
                (set_net (net serving) (on_disk (list_byte_of_string "abc")))))
     = <[tmp_jar := list_byte_of_string "PK"]> (fs (on_disk (list_byte_of_string "abc"))).
Proof.
  assert (Hold : forall old,
            fs (set_net (net serving) (on_disk (list_byte_of_string "abc"))) !! tmp_jar
            = Some old ->
            hex (digest_PK old) <> md5s_get Version114).
  { intros old H. vm_compute in H. inversion H. vm_compute. discriminate. }
  destruct (DownloadServer_downloads digest_PK Background Version114 tmp_jar
              (set_net (net serving) (on_disk (list_byte_of_string "abc")))
              {| StatusCode := 200; Body := list_byte_of_string "PK"; BodyErr := None |}
              ltac:(vm_compute; discriminate) Hold eq_refl eq_refl
              ltac:(vm_compute; reflexivity) eq_refl)
    as (Hr & Hfs & _).
  split; [exact Hr|exact Hfs].
Defined.

(** ** validateFileMD5 never says yes wrongly *)

(** Whatever fails, validateFileMD5 returns true only for a file that is
    at the path with the wanted checksum, and then returns that checksum;
    it changes no file. *)
Theorem validateFileMD5_sound
    (digest : list byte -> list byte) (path wantH : string) (w w' : World)
    (ok : bool) (md5 : string) :
  validateFileMD5 digest path wantH w = ((ok, md5), w') ->
  fs w' = fs w
  /\ (ok = true ->
      md5 = wantH
      /\ exists content, fs w !! path = Some content /\ hex (digest content) = wantH)
  /\ (ok = false -> md5 = "" \/ md5 <> wantH).
Proof.
  rewrite validateFileMD5_eq. intros H.
  destruct (planned w) as [x|].
  { inversion H; subst. repeat split; [discriminate|discriminate|left; reflexivity]. }
  destruct (fs w !! path) as [content|] eqn:Hf.
  2: { inversion H; subst. repeat split; [discriminate|discriminate|left; reflexivity]. }
  destruct (planned (step (EvOpen path) w)) as [y|].
  { inversion H; subst. repeat split; [discriminate|discriminate|left; reflexivity]. }
  inversion H; subst. split; [reflexivity|]. split.
  - intros Hok. apply String.eqb_eq in Hok. split; [assumption|].
    exists content. split; [reflexivity|assumption].
  - intros Hok. apply String.eqb_neq in Hok. right. assumption.
Qed.

Lemma validateFileMD5_sound_witness :
  validateFileMD5 MD5.Sum tmp_jar "900150983cd24fb0d6963f7d28e17f72"
    (on_disk (list_byte_of_string "abc"))
  = ((true, "900150983cd24fb0d6963f7d28e17f72"),
     snd (validateFileMD5 MD5.Sum tmp_jar "900150983cd24fb0d6963f7d28e17f72"
            (on_disk (list_byte_of_string "abc"))))
  /\ fs (snd (validateFileMD5 MD5.Sum tmp_jar "900150983cd24fb0d6963f7d28e17f72"
                (on_disk (list_byte_of_string "abc"))))
     = fs (on_disk (list_byte_of_string "abc")).
Proof.
  assert (E : validateFileMD5 MD5.Sum tmp_jar "900150983cd24fb0d6963f7d28e17f72"
                (on_disk (list_byte_of_string "abc"))
              = ((true, "900150983cd24fb0d6963f7d28e17f72"),
                 snd (validateFileMD5 MD5.Sum tmp_jar "900150983cd24fb0d6963f7d28e17f72"
                        (on_disk (list_byte_of_string "abc")))))
    by (vm_compute; reflexivity).
  split; [exact E|].
  exact (proj1 (validateFileMD5_sound MD5.Sum tmp_jar _ _ _ _ _ E)).
Defined.

(** ** waitForStart: what it returns, and how often it probes *)

Lemma select_Tick_Done_spec (ctx : Context) (w w1 : World) (ev : chosen) :
  select_Tick_Done 500 ctx w = (ev, w1) ->
  probe w1 = probe w /\ log w1 = log w
  /\ match ev with
     | Tick => now w1 = (now w + 500)%nat
     | Done => (now w <= now w1)%nat /\ ctx_done ctx (now w1) = true
     end.
Proof.
  unfold select_Tick_Done, ctx_done. intros H.
  destruct (done_at ctx) as [d|]; [|inversion H; subst; repeat split].
  destruct (Nat.leb_spec d (now w)) as [Hle|Hlt].
  { inversion H; subst. repeat split; [lia|]. apply Nat.leb_le, Hle. }
  destruct (Nat.ltb_spec d (now w + 500)) as [Hlt'|Hge].
  { inversion H; subst. cbn. repeat split; [lia|]. apply Nat.leb_refl. }
  destruct (Nat.eqb_spec d (now w + 500)) as [Heq|Hne].
  - destruct (tick_first w (now w + 500)%nat); inversion H; subst; cbn;
      repeat split; [lia|]. apply Nat.leb_refl.
  - inversion H; subst. repeat split.
Qed.

Lemma waitForStart_loop_result (fuel : nat) (c : Client) (ctx : Context)
    (w w' : World) (r : option error) :
  waitForStart_loop fuel c ctx w = (Some r, w') ->
  match r with
  | None =>
      exists (t duration : nat) (v : string),
        (now w + 500 <= t)%nat
        /\ probe w (client_url c) t = (duration, inr v)
        /\ now w' = (t + duration)%nat
  | Some e => e = reason ctx /\ ctx_done ctx (now w') = true
  end.
Proof.
  revert w. induction fuel as [|fuel IH]; intros w H; [inversion H|].
  cbn [waitForStart_loop] in H. unfold bind in H.
  destruct (select_Tick_Done 500 ctx w) as [ev w1] eqn:Hsel.
  apply select_Tick_Done_spec in Hsel as (Hp & _ & Hev).
  destruct ev.
  - unfold Client_Version, bind, emit in H. cbn in H.
    destruct (probe w1 (client_url c) (now w1)) as [duration [e|v]] eqn:Hprobe.
    + apply IH in H. cbn in H. destruct r as [e'|]; [exact H|].
      destruct H as (t & dur & v & Ht & Hpr & Hnow).
      exists t, dur, v. split; [lia|]. split; [rewrite <- Hp; exact Hpr|exact Hnow].
    + inversion H; subst. cbn.
      exists (now w1), duration, v. split; [lia|]. split; [rewrite <- Hp; exact Hprobe|].
      reflexivity.
  - destruct Hev as [_ Hdone]. unfold ctx_Err, ret in H. rewrite Hdone in H.
    inversion H; subst. split; [reflexivity|assumption].
Qed.

(** The only error that waitForStart returns is the error of a context
    that is done by then; and it returns nil only after a probe, issued at
    least one period after the call, has succeeded. *)
Theorem waitForStart_result
    (fuel : nat) (s : Server) (ctx : Context) (w w' : World) (r : option error) :
  waitForStart fuel s ctx w = (Some r, w') ->
  match r with
  | None =>
      exists (t duration : nat) (v : string),
        (now w + 500 <= t)%nat
        /\ probe w (URL s) t = (duration, inr v)
        /\ now w' = (t + duration)%nat
  | Some e => e = reason ctx /\ ctx_done ctx (now w') = true
  end.
Proof. unfold waitForStart. apply waitForStart_loop_result. Qed.

Lemma waitForStart_result_witness :
  waitForStart 5 sample_server two_seconds quiet
  = (Some (Some DeadlineExceeded), snd (waitForStart 5 sample_server two_seconds quiet))
  /\ ctx_done two_seconds (now (snd (waitForStart 5 sample_server two_seconds quiet)))
     = true.
Proof.
  assert (E : waitForStart 5 sample_server two_seconds quiet
              = (Some (Some DeadlineExceeded),
                 snd (waitForStart 5 sample_server two_seconds quiet)))
    by (vm_compute; reflexivity).
  split; [exact E|].
  exact (proj2 (waitForStart_result 5 sample_server two_seconds quiet _ _ E)).
Defined.

Lemma waitForStart_loop_pace (fuel : nat) (c : Client) (ctx : Context)
    (w w' : World) (r : option (option error)) :
  waitForStart_loop fuel c ctx w = (r, w') ->
  exists n : nat,
    log w' = (log w ++ replicate n (EvVersion (client_url c)))%list
    /\ (n <= fuel)%nat
    /\ (now w + 500 * n <= now w')%nat.
Proof.
  revert w. induction fuel as [|fuel IH]; intros w H.
  - inversion H; subst. exists 0%nat. split; [symmetry; apply app_nil_r|]. lia.
  - cbn [waitForStart_loop] in H. unfold bind in H.
    destruct (select_Tick_Done 500 ctx w) as [ev w1] eqn:Hsel.
    apply select_Tick_Done_spec in Hsel as (_ & Hl & Hev).
    destruct ev.
    + unfold Client_Version, bind, emit in H. cbn in H.
      destruct (probe w1 (client_url c) (now w1)) as [duration [e|v]] eqn:Hprobe.
      * apply IH in H. cbn in H. destruct H as (n & Hlog & Hn & Hnow).
        exists (S n). split; [rewrite Hlog, Hl, <- app_assoc; reflexivity|]. lia.
      * inversion H; subst. cbn. exists 1%nat.
        split; [rewrite Hl; reflexivity|]. lia.
    + unfold ctx_Err, ret in H. inversion H; subst.
      exists 0%nat. split; [rewrite Hl; symmetry; apply app_nil_r|]. lia.
Qed.

(** waitForStart does nothing but probe the URL of its server, and never
    faster than once per period of 500 milliseconds: if it has issued n
    probes, at least n periods have passed since it was called. *)
Theorem waitForStart_pace
    (fuel : nat) (s : Server) (ctx : Context) (w w' : World)
    (r : option (option error)) :
  waitForStart fuel s ctx w = (r, w') ->
  exists n : nat,
    new_events w w' = replicate n (EvVersion (URL s))
    /\ (now w + 500 * n <= now w')%nat.
Proof.
  unfold waitForStart. intros H.
  apply waitForStart_loop_pace in H as (n & Hlog & _ & Hnow).
  exists n. split; [apply new_events_app, Hlog|exact Hnow].
Qed.

Lemma waitForStart_pace_witness :
  exists n : nat,
    new_events quiet (snd (waitForStart 5 sample_server two_seconds quiet))
    = replicate n (EvVersion (URL sample_server))
    /\ (now quiet + 500 * n
        <= now (snd (waitForStart 5 sample_server two_seconds quiet)))%nat.
Proof.
  apply (waitForStart_pace 5 sample_server two_seconds quiet _
           (fst (waitForStart 5 sample_server two_seconds quiet))).
  destruct (waitForStart 5 sample_server two_seconds quiet); reflexivity.
Defined.

(** ** Start: success, failure, and the deadline *)



(** Every failing return of Start comes after a call of cancel, and leaves
    no child running. *)
Theorem Start_failure_cancels
    (fuel : nat) (s : Server) (ctx : Context) (w w' : World) (err : error) :
  Start fuel s ctx w = (Some (inl err), w') ->
  In EvCancel (new_events w w') /\ child w' <> Running.
Proof.
  unfold Start, context_WithCancel, bind. intros H.
  destruct (cmd_Start _ w) as [[e|] w0] eqn:Hs.
  - unfold cmd_Start, commandContext, bind, emit in Hs. cbn in Hs.
    destruct (exec_start w _); inversion Hs; subst.
    unfold cancel, bind, emit, ret in H. cbn in H.
    destruct (child w) eqn:Hc; inversion H; subst; cbn; rewrite ?Hc;
      (split; [|discriminate]);
      (erewrite new_events_app; [|cbn; rewrite <- app_assoc; reflexivity]);
      right; left; reflexivity.
  - assert (Hw0 : log w0 = (log w ++ [EvCmdStart (argv s)])%list
                  /\ child w0 = Running).
    { unfold cmd_Start, commandContext, bind, emit in Hs. cbn in Hs.
      destruct (exec_start w _); inversion Hs; subst. split; reflexivity. }
    destruct Hw0 as [Hlog0 Hchild0].
    destruct (waitForStart fuel s ctx w0) as [[[e|]|] w1] eqn:Hwait;
      [|inversion H|inversion H].
    pose proof (waitForStart_loop_frame _ _ _ _ _ _ Hwait)
      as (_ & _ & Hchild & _ & n & Hlog1).
    rewrite Hchild0 in Hchild.
    unfold cancel, cmd_CombinedOutput, bind, emit, ret in H. cbn in H.
    rewrite Hchild in H. cbn in H. inversion H; subst; cbn.
    split; [|discriminate].
    erewrite new_events_app;
      [|cbn; rewrite Hlog1, Hlog0, <- !app_assoc; reflexivity].
    apply in_or_app; right; apply in_or_app; right; left; reflexivity.
Qed.

Lemma Start_failure_cancels_witness :
  Start 5 sample_server two_seconds quiet
  = (Some (inl (ErrReadingOutput (LibError "exec: already started"))),
     snd (Start 5 sample_server two_seconds quiet))
  /\ child (snd (Start 5 sample_server two_seconds quiet)) <> Running.
Proof.
  assert (E : Start 5 sample_server two_seconds quiet
              = (Some (inl (ErrReadingOutput (LibError "exec: already started"))),
                 snd (Start 5 sample_server two_seconds quiet)))
    by (vm_compute; reflexivity).
  split; [exact E|].
  exact (proj2 (Start_failure_cancels 5 sample_server two_seconds quiet _ _ E)).
Defined.

(** With a context that has a deadline, Start returns: a bound on the
    readiness loop of one more than the number of periods left until the
    deadline is never reached. *)
Theorem Start_returns
    (s : Server) (ctx : Context) (d : nat) (w : World) (fuel : nat) :
  done_at ctx = Some d ->
  (d <= now w + 500 * fuel)%nat ->
  exists (r : error + M unit) (w' : World), Start (S fuel) s ctx w = (Some r, w').
Proof.
  intros Hd Hle.
  pose proof (Start_returns_by_deadline s ctx d w Hd fuel Hle) as H.
  destruct (Start (S fuel) s ctx w) as [[r|] w']; [|contradiction].
  exists r, w'. reflexivity.
Qed.

Lemma Start_returns_witness :
  done_at two_seconds = Some 2000%nat
  /\ (2000 <= now quiet + 500 * 4)%nat
  /\ exists (r : error + M unit) (w' : World),
       Start 5 sample_server two_seconds quiet = (Some r, w').
Proof.
  split; [reflexivity|]. split; [vm_compute; repeat constructor|].
  apply (Start_returns sample_server two_seconds 2000 quiet 4 eq_refl).
  vm_compute. repeat constructor.
Defined.

(** ** NewServer: what the handle holds

    Facts about the strings that [url.Parse] takes apart. *)

Lemma contains_byte_app (c : ascii) (a b : string) :
  url.contains_byte c (a ++ b) = url.contains_byte c a || url.contains_byte c b.
Proof. induction a as [|d a IH]; simpl; [reflexivity|]. rewrite IH. apply orb_assoc. Qed.

Lemma cut_absent (c : ascii) (s : string) :
  url.contains_byte c s = false -> url.cut c s = (s, "", false).
Proof.
  induction s as [|d s IH]; cbn; [reflexivity|]. intros H.
  apply orb_false_elim in H as [Hd Hs]. rewrite Hd, (IH Hs). reflexivity.
Qed.

Lemma last_index_absent (c : ascii) (s : string) :
  url.contains_byte c s = false -> url.last_index c s = None.
Proof.
  induction s as [|d s IH]; cbn; [reflexivity|]. intros H.
  apply orb_false_elim in H as [Hd Hs]. rewrite (IH Hs), Hd. reflexivity.
Qed.

Lemma last_index_app_absent (c : ascii) (a b : string) :
  url.contains_byte c b = false -> url.last_index c (a ++ b) = url.last_index c a.
Proof.
  intros H. induction a as [|d a IH]; simpl; [apply last_index_absent, H|].
  rewrite IH. reflexivity.
Qed.

Lemma has_suffix_byte_absent (c : ascii) (s : string) :
  url.contains_byte c s = false -> url.has_suffix_byte c s = false.
Proof.
  induction s as [|d s IH]; cbn; [reflexivity|]. intros H.
  apply orb_false_elim in H as [Hd Hs]. destruct s; [exact Hd|apply IH, Hs].
Qed.

Lemma index_str_absent (c : ascii) (s : string) :
  url.contains_byte c s = false -> url.index_str (String c "") s = None.
Proof.
  unfold url.index_str. induction s as [|d s IH]; cbn; [reflexivity|]. intros H.
  apply orb_false_elim in H as [Hd Hs]. rewrite (IH Hs).
  destruct (ascii_dec c d) as [->|_]; [|reflexivity].
  rewrite Ascii.eqb_refl in Hd. discriminate Hd.
Qed.

Lemma stringContainsCTLByte_app (a b : string) :
  url.stringContainsCTLByte (a ++ b)
  = url.stringContainsCTLByte a || url.stringContainsCTLByte b.
Proof. induction a as [|d a IH]; simpl; [reflexivity|]. rewrite IH. apply orb_assoc. Qed.

Lemma all_bytes_app (p : ascii -> bool) (a b : string) :
  url.all_bytes p (a ++ b) = url.all_bytes p a && url.all_bytes p b.
Proof. induction a as [|d a IH]; simpl; [reflexivity|]. rewrite IH. apply andb_assoc. Qed.

Lemma all_bytes_impl (p q : ascii -> bool) (s : string) :
  (forall c, p c = true -> q c = true) ->
  url.all_bytes p s = true -> url.all_bytes q s = true.
Proof.
  intros Hpq. induction s as [|d s IH]; cbn; [reflexivity|]. intros H.
  apply andb_prop in H as [Hd Hs]. rewrite (Hpq _ Hd), (IH Hs). reflexivity.
Qed.

Lemma is_digit_bytes (P : ascii -> Prop) :
  P "0"%char -> P "1"%char -> P "2"%char -> P "3"%char -> P "4"%char ->
  P "5"%char -> P "6"%char -> P "7"%char -> P "8"%char -> P "9"%char ->
  forall c, url.is_digit c = true -> P c.
Proof.
  intros H0 H1 H2 H3 H4 H5 H6 H7 H8 H9 c.
  destruct c as [[] [] [] [] [] [] [] []]; vm_compute; intros H;
    first [discriminate H | assumption].
Qed.

Lemma digit_not_special (c : ascii) :
  url.is_digit c = true ->
  Ascii.eqb "#" c = false /\ Ascii.eqb "?" c = false /\ Ascii.eqb "/" c = false
  /\ Ascii.eqb "@" c = false /\ Ascii.eqb ":" c = false
  /\ (nat_of_ascii c <? 32)%nat = false /\ (nat_of_ascii c =? 127)%nat = false.
Proof. revert c. apply is_digit_bytes; vm_compute; repeat split. Qed.

Lemma digits_absent (c : ascii) (s : string) :
  url.is_digit c = false ->
  url.all_bytes url.is_digit s = true -> url.contains_byte c s = false.
Proof.
  intros Hc. induction s as [|d s IH]; cbn; [reflexivity|]. intros H.
  apply andb_prop in H as [Hd Hs]. rewrite (IH Hs), orb_false_r.
  destruct (Ascii.eqb_spec c d) as [->|_]; [congruence|reflexivity].
Qed.

Lemma digits_no_CTL (s : string) :
  url.all_bytes url.is_digit s = true -> url.stringContainsCTLByte s = false.
Proof.
  induction s as [|d s IH]; [reflexivity|].
  cbn [url.stringContainsCTLByte url.all_bytes]. intros H.
  apply andb_prop in H as [Hd Hs].
  destruct (digit_not_special d Hd) as (_ & _ & _ & _ & _ & H1 & H2).
  rewrite H1, H2, (IH Hs). reflexivity.
Qed.

Lemma unescape_host_digits (s : string) :
  url.all_bytes url.is_digit s = true -> url.unescape s url.encodeHost = inr s.
Proof.
  induction s as [|d s IH]; [reflexivity|]. cbn [url.all_bytes]. intros H.
  apply andb_prop in H as [Hd Hs]. specialize (IH Hs). revert d Hd.
  apply is_digit_bytes; cbn; rewrite IH; reflexivity.
Qed.

Lemma escape_host_digits (s : string) :
  url.all_bytes url.is_digit s = true -> url.escape s url.encodeHost = s.
Proof.
  induction s as [|d s IH]; [reflexivity|]. cbn [url.all_bytes]. intros H.
  apply andb_prop in H as [Hd Hs]. cbn [url.escape].
  unfold url.shouldEscape. rewrite Hd, orb_true_r, (IH Hs). reflexivity.
Qed.

Lemma unescape_host_cons (c : ascii) (rest : string) :
  host_plain c = true ->
  url.unescape (String c rest) url.encodeHost
  = match url.unescape rest url.encodeHost with
    | inl e => inl e
    | inr t => inr (String c t)
    end.
Proof.
  destruct c as [[] [] [] [] [] [] [] []]; intros H; vm_compute in H;
    first [discriminate H | cbn; destruct (url.unescape rest url.encodeHost); reflexivity].
Qed.

Lemma unescape_host_plain (s : string) :
  url.all_bytes host_plain s = true -> url.unescape s url.encodeHost = inr s.
Proof.
  induction s as [|c s IH]; [reflexivity|]. cbn [url.all_bytes]. intros H.
  apply andb_prop in H as [Hc Hs]. rewrite (unescape_host_cons c s Hc), (IH Hs).
  reflexivity.
Qed.

Lemma escape_host_plain (s : string) :
  url.all_bytes (fun c => negb (url.shouldEscape c url.encodeHost)) s = true ->
  url.escape s url.encodeHost = s.
Proof.
  induction s as [|c s IH]; [reflexivity|]. cbn [url.all_bytes url.escape]. intros H.
  apply andb_prop in H as [Hc Hs]. apply negb_true_iff in Hc.
  rewrite Hc, (IH Hs). reflexivity.
Qed.

Lemma digit_host_plain (c : ascii) :
  url.is_digit c = true ->
  host_plain c = true /\ negb (url.shouldEscape c url.encodeHost) = true.
Proof. revert c. apply is_digit_bytes; vm_compute; split; reflexivity. Qed.

Lemma getScheme_localhost (rest : string) :
  url.getScheme ("http://localhost:" ++ rest) = inr ("http", "//localhost:" ++ rest).
Proof. reflexivity. Qed.

Lemma parseHost_numeric (digits : string) :
  url.all_bytes url.is_digit digits = true ->
  url.parseHost ("localhost:" ++ digits) = inr ("localhost:" ++ digits).
Proof.
  intros Hd. unfold url.parseHost.
  rewrite unescape_host_plain.
  2: { rewrite all_bytes_app.
       rewrite (all_bytes_impl _ _ _ (fun c H => proj1 (digit_host_plain c H)) Hd).
       reflexivity. }
  change (String.prefix "[" ("localhost:" ++ digits)) with false. cbv iota.
  rewrite (last_index_app_absent ":" "localhost:" digits (digits_absent ":" digits eq_refl Hd)).
  change (url.last_index ":" "localhost:") with (Some 9%nat). cbv iota.
  change (url.drop_s 9 ("localhost:" ++ digits)) with (String ":" digits).
  unfold url.validOptionalPort. rewrite Ascii.eqb_refl, Hd. reflexivity.
Qed.

Lemma append_empty_r (s : string) : s ++ "" = s.
Proof.
  induction s as [|c s IH]; [reflexivity|].
  change (String c s ++ "") with (String c (s ++ "")). rewrite IH. reflexivity.
Qed.

Lemma Parse_numeric (digits : string) :
  url.all_bytes url.is_digit digits = true ->
  exists u : url.URL,
    url.Parse ("http://localhost:" ++ digits) = inr u
    /\ url.String_ u = "http://localhost:" ++ digits.
Proof.
  intros Hd.
  assert (Habs : forall c, url.is_digit c = false ->
            url.contains_byte c ("http://localhost:" ++ digits)
            = url.contains_byte c "http://localhost:").
  { intros c Hc. rewrite contains_byte_app, (digits_absent c digits Hc Hd).
    apply orb_false_r. }
  assert (Habs' : forall c, url.is_digit c = false ->
            url.contains_byte c ("//localhost:" ++ digits)
            = url.contains_byte c "//localhost:").
  { intros c Hc. rewrite contains_byte_app, (digits_absent c digits Hc Hd).
    apply orb_false_r. }
  unfold url.Parse.
  rewrite (cut_absent "#" _ (eq_trans (Habs "#"%char eq_refl) eq_refl)).
  cbv beta iota.
  unfold url.parse.
  rewrite stringContainsCTLByte_app, (digits_no_CTL _ Hd).
  change (url.stringContainsCTLByte "http://localhost:") with false.
  change (String.eqb ("http://localhost:" ++ digits) "*") with false.
  cbv beta iota. cbn [orb]. cbv iota.
  rewrite getScheme_localhost. cbv beta iota zeta.
  rewrite (has_suffix_byte_absent "?" _ (eq_trans (Habs' "?"%char eq_refl) eq_refl)).
  cbn [andb]. cbv iota.
  rewrite (cut_absent "?" _ (eq_trans (Habs' "?"%char eq_refl) eq_refl)).
  cbv beta iota.
  change (String.prefix "/" ("//localhost:" ++ digits)) with true.
  change (String.prefix "///" ("//localhost:" ++ digits)) with false.
  change (String.prefix "//" ("//localhost:" ++ digits)) with true.
  change (url.ToLower "http") with "http".
  change (String.eqb "http" "") with false.
  cbn [negb andb orb]. cbv iota.
  change (url.drop_s 2 ("//localhost:" ++ digits)) with ("localhost:" ++ digits).
  assert (Hslash : url.contains_byte "/" ("localhost:" ++ digits) = false).
  { rewrite contains_byte_app, (digits_absent "/" digits eq_refl Hd). reflexivity. }
  assert (Hat : url.contains_byte "@" ("localhost:" ++ digits) = false).
  { rewrite contains_byte_app, (digits_absent "@" digits eq_refl Hd). reflexivity. }
  rewrite (index_str_absent "/" _ Hslash). cbv beta iota.
  unfold url.parseAuthority.
  rewrite (last_index_absent "@" _ Hat), (parseHost_numeric digits Hd).
  cbv beta iota.
  eexists. split; [reflexivity|].
  unfold url.String_, url.EscapedPath, url.EscapedFragment.
  cbn [url.Scheme url.Opaque url.User url.Host url.Path url.RawPath url.OmitHost
       url.ForceQuery url.RawQuery url.Fragment url.RawFragment url.is_some].
  change (String.eqb ("localhost:" ++ digits) "") with false.
  rewrite escape_host_plain.
  2: { rewrite all_bytes_app.
       rewrite (all_bytes_impl _ _ _ (fun c H => proj2 (digit_host_plain c H)) Hd).
       reflexivity. }
  vm_compute. rewrite !append_empty_r. reflexivity.
Qed.

(** For a port made of decimal digits NewServer succeeds, keeps the jar
    and the port it was given, and its URL is exactly http://localhost:
    followed by the port. *)
Theorem NewServer_numeric_port (j p : string) :
  j <> "" -> p <> "" ->
  url.all_bytes url.is_digit p = true ->
  exists s : Server,
    NewServer j p = inr s
    /\ jar s = j /\ port s = p
    /\ URL s = "http://localhost:" ++ p.
Proof.
  intros Hj Hp Hd. destruct (Parse_numeric p Hd) as (u & Hparse & Hstring).
  unfold NewServer. apply String.eqb_neq in Hj, Hp. rewrite Hj, Hp, Hparse.
  eexists. split; [reflexivity|]. repeat split. exact Hstring.
Qed.

Lemma NewServer_numeric_port_witness :
  exists s : Server,
    NewServer "tika-server.jar" "8080" = inr s
    /\ jar s = "tika-server.jar" /\ port s = "8080"
    /\ URL s = "http://localhost:8080".
Proof.
  apply (NewServer_numeric_port "tika-server.jar" "8080").
  - discriminate.
  - discriminate.
  - reflexivity.
Defined.

Lemma cut_app_absent (c : ascii) (pre s : string) :
  url.contains_byte c pre = false ->
  url.cut c (pre ++ s)
  = (pre ++ fst (fst (url.cut c s)), snd (fst (url.cut c s)), snd (url.cut c s)).
Proof.
  intros H. induction pre as [|d pre IH].
  - change ("" ++ s) with s. destruct (url.cut c s) as [[b a] f]. reflexivity.
  - change (String d pre ++ s) with (String d (pre ++ s)).
    cbn [url.contains_byte] in H. apply orb_false_elim in H as [Hd Hpre].
    cbn [url.cut]. rewrite Hd, (IH Hpre). reflexivity.
Qed.

Lemma setFragment_fields (u u' : url.URL) (f : string) :
  url.setFragment u f = inr u' ->
  url.Scheme u' = url.Scheme u /\ url.Opaque u' = url.Opaque u
  /\ url.User u' = url.User u /\ url.Host u' = url.Host u.
Proof.
  unfold url.setFragment. destruct (url.unescape f url.encodeFragment); [discriminate|].
  intros H. inversion H; subst. repeat split.
Qed.

Lemma setPath_fields (u u' : url.URL) (p : string) :
  url.setPath u p = inr u' ->
  url.Scheme u' = url.Scheme u /\ url.Opaque u' = url.Opaque u
  /\ url.User u' = url.User u /\ url.Host u' = url.Host u.
Proof.
  unfold url.setPath. destruct (url.unescape p url.encodePath); [discriminate|].
  intros H. inversion H; subst. repeat split.
Qed.

Lemma parseAuthority_l (a : string) (user : option url.Userinfo) (host : string) :
  url.parseAuthority (String "l" a) = inr (user, host) ->
  host <> "" \/ user <> None.
Proof.
  unfold url.parseAuthority.
  destruct (url.last_index "@" (String "l" a)) as [i|].
  - destruct (url.parseHost _) as [e|h]; [discriminate|].
    destruct (negb (url.validUserinfo _)); [discriminate|].
    destruct (negb (url.contains_byte ":" _)).
    + destruct (url.unescape _ url.encodeUserPassword); [discriminate|].
      intros H. inversion H. right. discriminate.
    + destruct (url.cut ":" _) as [[uname pass] f].
      destruct (url.unescape uname _); [discriminate|].
      destruct (url.unescape pass _); [discriminate|].
      intros H. inversion H. right. discriminate.
  - unfold url.parseHost.
    change (String.prefix "[" (String "l" a)) with false. cbv iota.
    rewrite (unescape_host_cons "l" a eq_refl).
    destruct (url.unescape a url.encodeHost) as [e|t].
    + destruct (url.last_index ":" _) as [i|]; [|discriminate].
      destruct (negb (url.validOptionalPort _)); discriminate.
    + intros H. left.
      destruct (url.last_index ":" _) as [i|].
      * destruct (negb (url.validOptionalPort _)); [discriminate|].
        inversion H. discriminate.
      * inversion H. discriminate.
Qed.

Ltac parse_authority_branch :=
  match goal with
  | |- context [url.index_str "/" (String "l" ?q)] =>
      unfold url.index_str; cbn [String.index];
      change (String.prefix "/" (String "l" q)) with false; cbv iota;
      destruct (String.index 0 "/" q) as [n|]; cbv beta iota;
      [ change (url.take_s (S n) (String "l" q)) with (String "l" (url.take_s n q))
      | ];
      match goal with
      | |- context [url.parseAuthority (String "l" ?a)] =>
          let Hauth := fresh "Hauth" in
          destruct (url.parseAuthority (String "l" a)) as [e|[user host]] eqn:Hauth;
          [discriminate|];
          let H := fresh "H" in
          intros H; apply setPath_fields in H as (-> & -> & -> & ->);
          split; [reflexivity|]; split; [reflexivity|];
          exact (parseAuthority_l _ _ _ Hauth)
      end
  end.

Lemma parse_localhost (b : string) (u : url.URL) :
  url.parse ("http://localhost:" ++ b) = inr u ->
  url.Scheme u = "http" /\ url.Opaque u = ""
  /\ (url.Host u <> "" \/ url.User u <> None).
Proof.
  unfold url.parse.
  destruct (url.stringContainsCTLByte _); [discriminate|].
  change (String.eqb ("http://localhost:" ++ b) "*") with false. cbv iota.
  rewrite getScheme_localhost. cbv beta iota zeta.
  change (url.ToLower "http") with "http".
  change (String.eqb "http" "") with false.
  destruct (url.has_suffix_byte "?" ("//localhost:" ++ b)
            && (url.count_byte "?" ("//localhost:" ++ b) =? 1)%nat).
  - change (url.take_s (String.length ("//localhost:" ++ b) - 1) ("//localhost:" ++ b))
      with (String "/" (String "/" (String "l"
              (url.take_s (8 + String.length b) ("ocalhost:" ++ b))))).
    cbv beta iota.
    match goal with
    | |- context [String "/" (String "/" (String "l" ?q))] =>
        change (String.prefix "/" (String "/" (String "/" (String "l" q)))) with true;
        change (String.prefix "///" (String "/" (String "/" (String "l" q)))) with false;
        change (String.prefix "//" (String "/" (String "/" (String "l" q)))) with true;
        change (url.drop_s 2 (String "/" (String "/" (String "l" q))))
          with (String "l" q)
    end.
    cbn [negb andb orb]. cbv iota.
    parse_authority_branch.
  - rewrite (cut_app_absent "?" "//localhost:" b eq_refl).
    destruct (url.cut "?" b) as [[x a] f]. cbn [fst snd]. cbv beta iota.
    change ("//localhost:" ++ x) with (String "/" (String "/" (String "l" ("ocalhost:" ++ x)))).
    match goal with
    | |- context [String "/" (String "/" (String "l" ?q))] =>
        change (String.prefix "/" (String "/" (String "/" (String "l" q)))) with true;
        change (String.prefix "///" (String "/" (String "/" (String "l" q)))) with false;
        change (String.prefix "//" (String "/" (String "/" (String "l" q)))) with true;
        change (url.drop_s 2 (String "/" (String "/" (String "l" q))))
          with (String "l" q)
    end.
    cbn [negb andb orb]. cbv iota.
    parse_authority_branch.
Qed.

Lemma prefix_http (a t r : string) :
  String.prefix "http://" (("http" ++ ":") ++ ((("//" ++ a) ++ t) ++ r)) = true.
Proof.
  change (String.prefix "" ((a ++ t) ++ r) = true).
  destruct ((a ++ t) ++ r); reflexivity.
Qed.

Lemma String_http (u : url.URL) :
  url.Scheme u = "http" -> url.Opaque u = "" ->
  url.Host u <> "" \/ url.User u <> None ->
  String.prefix "http://" (url.String_ u) = true.
Proof.
  destruct u as [scheme opaque user host path rawpath omit force query frag rawfrag].
  cbn [url.Scheme url.Opaque url.Host url.User]. intros -> -> H.
  unfold url.String_.
  cbn [url.Scheme url.Opaque url.User url.Host url.Path url.OmitHost].
  change (String.eqb "http" "") with false.
  change (String.eqb "" "") with true.
  cbn [negb orb]. cbv iota.
  destruct (String.eqb_spec host "") as [->|Hhost].
  - destruct H as [H|H]; [contradiction|].
    destruct user as [ui|]; [|contradiction].
    cbn [url.is_some negb andb orb]. rewrite andb_false_r, orb_true_r.
    apply prefix_http.
  - rewrite andb_false_r. cbn [negb orb andb]. cbv iota. apply prefix_http.
Qed.

(** Every handle that NewServer returns holds the jar it was given and a
    port that is not empty (the one it was given, or 9998 for none), and
    its URL begins with http:// whatever the port is. *)
Theorem NewServer_handle (j p : string) (s : Server) :
  NewServer j p = inr s ->
  j <> "" /\ jar s = j
  /\ port s = (if String.eqb p "" then "9998" else p) /\ port s <> ""
  /\ String.prefix "http://" (URL s) = true.
Proof.
  unfold NewServer. destruct (String.eqb_spec j "") as [|Hj]; [discriminate|].
  set (p' := if String.eqb p "" then "9998" else p).
  assert (Hp' : p' <> "").
  { unfold p'. destruct (String.eqb_spec p ""); [discriminate|assumption]. }
  destruct (url.Parse ("http://localhost:" ++ p')) as [e|u] eqn:Hparse; [discriminate|].
  intros H. inversion H; subst. cbn [jar port URL url].
  repeat split; try assumption.
  unfold url.Parse in Hparse.
  rewrite (cut_app_absent "#" "http://localhost:" p' eq_refl) in Hparse.
  cbv beta iota in Hparse. cbn [fst snd] in Hparse.
  destruct (url.parse _) as [e|u0] eqn:Hu0; [discriminate|].
  apply parse_localhost in Hu0 as (Hs & Ho & Hh).
  destruct (String.eqb (snd (fst (url.cut "#" p'))) "");
    [inversion Hparse; subst; apply String_http; assumption|].
  destruct (url.setFragment u0 _) as [e|u1] eqn:Hf; [discriminate|].
  inversion Hparse; subst.
  apply setFragment_fields in Hf as (Hs1 & Ho1 & Hu1 & Hh1).
  apply String_http; congruence.
Qed.

Lemma NewServer_handle_witness :
  NewServer "x.jar" "99/a b" = inr {| jar := "x.jar"; url := "http://localhost:99/a%20b";
                                      port := "99/a b" |}
  /\ String.prefix "http://" "http://localhost:99/a%20b" = true.
Proof.
  assert (E : NewServer "x.jar" "99/a b"
              = inr {| jar := "x.jar"; url := "http://localhost:99/a%20b";
                       port := "99/a b" |}) by (vm_compute; reflexivity).
  split; [exact E|].
  exact (proj2 (proj2 (proj2 (proj2 (NewServer_handle _ _ _ E))))).
Defined.
